(** * Team project planner: users, teams and project boards

    A shallow embedding of the three collection managers
    ([UserManager] in user_base.py, [TeamManager] in team_base.py and
    [ProjectBoardManager] in project_board_base.py) and of the part of
    Python's behaviour on JSON values that their bodies rely on.

    Modelling conventions.
    - A JSON document is a value of [json].  Numbers are integers; JSON
      numbers with a fraction or an exponent are outside the model.  A
      Python [str] is a [string], character by character.
    - A Python [dict] is an association list in insertion order with
      one entry per key; assigning to a key that is present keeps its
      position, assigning to a new key appends.
    - A request is given by the fields that the method reads from the
      parsed document ([json.loads(request)] followed by [.get]); each
      field is an arbitrary JSON value, except the partial record of the
      two update requests, which is a JSON object.
    - The backing file of a manager is represented by the JSON object it
      holds: [json.load] returns it, [json.dump] replaces it.  The text
      of the file (indentation, and what [file.seek(0)] followed by a
      shorter [json.dump] leaves behind) is not represented.
    - [datetime.datetime.now().isoformat()] is the argument [now] of the
      operations that read the clock, and the order in which a [set]
      yields its elements is the argument [order] of the operation that
      builds one.
    - Every method wraps its body in [try ... except Exception] and raises
      [ValueError(traceback.format_exc())]; the model reports the
      exception raised inside the body, which is the one that traceback
      names. *)

From Stdlib Require Import List String Ascii ZArith Lia Bool Arith Permutation.
From Stdlib Require Import DecimalString DecimalNat.
Import ListNotations.
Open Scope string_scope.
Open Scope list_scope.

(** ** JSON values and Python dictionaries *)

Set Warnings "-register-all".

Inductive json : Type :=
| JNull
| JBool (b : bool)
| JNum (n : Z)
| JStr (s : string)
| JArr (l : list json)
| JObj (o : list (string * json)).

Definition dict : Type := list (string * json).

Fixpoint dict_get (k : string) (d : dict) : option json :=
  match d with
  | [] => None
  | (k', v) :: d' => if String.eqb k k' then Some v else dict_get k d'
  end.

Fixpoint dict_set (k : string) (v : json) (d : dict) : dict :=
  match d with
  | [] => [(k, v)]
  | (k', v') :: d' =>
      if String.eqb k k' then (k', v) :: d' else (k', v') :: dict_set k v d'
  end.

Definition dict_has (k : string) (d : dict) : bool :=
  match dict_get k d with Some _ => true | None => false end.

Definition keys (d : dict) : list string := map fst d.
Definition values (d : dict) : list json := map snd d.

(** [d.update(other)] for a dictionary [other]. *)
Definition dict_update (other d : dict) : dict :=
  fold_left (fun acc kv => dict_set (fst kv) (snd kv) acc) other d.

(** ** Exceptions and results *)

Inductive exn : Type :=
| ValueError (msg : string)
| KeyError (key : json)
| IndexError
| TypeError
| AttributeError.

Inductive result (A : Type) : Type :=
| Ok (a : A)
| Err (e : exn).
Arguments Ok {A} a.
Arguments Err {A} e.

Definition rbind {A B} (r : result A) (k : A -> result B) : result B :=
  match r with Ok a => k a | Err e => Err e end.

Declare Scope py_scope.
Delimit Scope py_scope with py.
Notation "x <- r ;; k" := (rbind r (fun x => k))
  (at level 61, r at next level, right associativity) : py_scope.
Open Scope py_scope.

(** ** Python operations on JSON values *)

(** Truth value, as tested by [if not x]. *)
Definition truthy (x : json) : bool :=
  match x with
  | JNull => false
  | JBool b => b
  | JNum n => negb (Z.eqb n 0)
  | JStr s => negb (String.eqb s "")
  | JArr l => match l with [] => false | _ => true end
  | JObj o => match o with [] => false | _ => true end
  end.

(** [len(x)]. *)
Definition py_len (x : json) : result nat :=
  match x with
  | JStr s => Ok (String.length s)
  | JArr l => Ok (List.length l)
  | JObj o => Ok (List.length o)
  | _ => Err TypeError
  end.

(** [a == b].  [True] and [False] compare equal to 1 and 0; two
    dictionaries are equal when they have the same keys with equal
    values, in any order. *)
Fixpoint py_eq (a b : json) {struct a} : bool :=
  match a, b with
  | JNull, JNull => true
  | JBool x, JBool y => Bool.eqb x y
  | JBool x, JNum n => Z.eqb (if x then 1 else 0) n
  | JNum n, JBool x => Z.eqb n (if x then 1 else 0)
  | JNum n, JNum m => Z.eqb n m
  | JStr s, JStr t => String.eqb s t
  | JArr l, JArr m =>
      (fix go (l m : list json) {struct l} : bool :=
         match l, m with
         | [], [] => true
         | x :: l', y :: m' => py_eq x y && go l' m'
         | _, _ => false
         end) l m
  | JObj o, JObj p =>
      Nat.eqb (List.length o) (List.length p) &&
      (fix go (o : list (string * json)) {struct o} : bool :=
         match o with
         | [] => true
         | (k, v) :: o' =>
             match dict_get k p with
             | Some w => py_eq v w
             | None => false
             end && go o'
         end) o
  | _, _ => false
  end.

(** Lists and dictionaries cannot be hashed. *)
Definition hashable (x : json) : bool :=
  match x with
  | JArr _ | JObj _ => false
  | _ => true
  end.

(** [p in s] for two strings: [p] occurs in [s]. *)
Fixpoint is_substring (p s : string) : bool :=
  String.prefix p s ||
  match s with
  | EmptyString => false
  | String _ s' => is_substring p s'
  end.

(** [x in c]. *)
Definition py_in (x c : json) : result bool :=
  match c with
  | JObj o =>
      match x with
      | JStr k => Ok (dict_has k o)
      | JArr _ | JObj _ => Err TypeError
      | _ => Ok false
      end
  | JArr l => Ok (existsb (fun y => py_eq y x) l)
  | JStr s =>
      match x with
      | JStr p => Ok (is_substring p s)
      | _ => Err TypeError
      end
  | _ => Err TypeError
  end.

(** An integer used as an index: [bool] is a subclass of [int]. *)
Definition as_index (i : json) : option Z :=
  match i with
  | JNum n => Some n
  | JBool b => Some (if b then 1 else 0)%Z
  | _ => None
  end.

(** Position selected by index [n] in a sequence of length [len]. *)
Definition norm_index (n : Z) (len : nat) : result nat :=
  let n' := (if n <? 0 then n + Z.of_nat len else n)%Z in
  if ((0 <=? n') && (n' <? Z.of_nat len))%Z then Ok (Z.to_nat n')
  else Err IndexError.

(** [c[i]]. *)
Definition py_getitem (c i : json) : result json :=
  match c with
  | JObj o =>
      match i with
      | JStr k =>
          match dict_get k o with
          | Some v => Ok v
          | None => Err (KeyError i)
          end
      | JArr _ | JObj _ => Err TypeError
      | _ => Err (KeyError i)
      end
  | JArr l =>
      match as_index i with
      | Some n => p <- norm_index n (List.length l) ;;
                  match nth_error l p with
                  | Some v => Ok v
                  | None => Err IndexError
                  end
      | None => Err TypeError
      end
  | JStr s =>
      match as_index i with
      | Some n => p <- norm_index n (String.length s) ;;
                  match String.get p s with
                  | Some ch => Ok (JStr (String ch EmptyString))
                  | None => Err IndexError
                  end
      | None => Err TypeError
      end
  | _ => Err TypeError
  end.

(** [c[k] = v] for a string [k], returning [c] after the assignment. *)
Definition py_setitem (c : json) (k : string) (v : json) : result json :=
  match c with
  | JObj o => Ok (JObj (dict_set k v o))
  | _ => Err TypeError
  end.

Fixpoint list_set (p : nat) (v : json) (l : list json) : list json :=
  match l, p with
  | [], _ => []
  | _ :: l', O => v :: l'
  | x :: l', S p' => x :: list_set p' v l'
  end.

(** Objects are shared, not copied: after [x = c[i]] a change made to
    [x] is seen through [c].  [with_item c i v] is [c] once the object
    that [py_getitem c i] returned has become [v]. *)
Definition with_item (c i v : json) : json :=
  match c with
  | JObj o =>
      match i with
      | JStr k => JObj (dict_set k v o)
      | _ => c
      end
  | JArr l =>
      match as_index i with
      | Some n =>
          match norm_index n (List.length l) with
          | Ok p => JArr (list_set p v l)
          | Err _ => c
          end
      | None => c
      end
  | _ => c
  end.

(** [c.values()]. *)
Definition py_values (c : json) : result (list json) :=
  match c with
  | JObj o => Ok (values o)
  | _ => Err AttributeError
  end.

(** [d.get(k, default)]. *)
Definition py_get (d : json) (k : string) (default : json) : result json :=
  match d with
  | JObj o =>
      match dict_get k o with
      | Some v => Ok v
      | None => Ok default
      end
  | _ => Err AttributeError
  end.

(** The characters of a string, each as a string of length one. *)
Fixpoint chars (s : string) : list json :=
  match s with
  | EmptyString => []
  | String ch s' => JStr (String ch EmptyString) :: chars s'
  end.

(** The elements produced by iterating over [c]. *)
Definition py_iter (c : json) : result (list json) :=
  match c with
  | JArr l => Ok l
  | JStr s => Ok (chars s)
  | JObj o => Ok (map JStr (keys o))
  | _ => Err TypeError
  end.

(** [a + b]. *)
Definition py_add (a b : json) : result json :=
  match a, b with
  | JArr l, JArr m => Ok (JArr (l ++ m))
  | JStr s, JStr t => Ok (JStr (s ++ t))
  | _, _ =>
      match as_index a, as_index b with
      | Some n, Some m => Ok (JNum (n + m))
      | _, _ => Err TypeError
      end
  end.

(** [any(f(x) for x in l)]: the generator is consumed from the left and
    stops at the first true value; an exception raised by [f] ends it. *)
Fixpoint any_m {A} (f : A -> result bool) (l : list A) : result bool :=
  match l with
  | [] => Ok false
  | x :: l' => b <- f x ;; if b then Ok true else any_m f l'
  end.

(** [[f(x) for x in l]]. *)
Fixpoint map_m {A B} (f : A -> result B) (l : list A) : result (list B) :=
  match l with
  | [] => Ok []
  | x :: l' => y <- f x ;; ys <- map_m f l' ;; Ok (y :: ys)
  end.

(** [str(n)] for a natural number. *)
Definition str (n : nat) : string := NilEmpty.string_of_uint (Nat.to_uint n).

(** The elements of [set(l)]: one representative, the first inserted, of
    each class of equal elements. *)
Fixpoint py_set (l : list json) : list json :=
  match l with
  | [] => []
  | x :: l' => x :: filter (fun y => negb (py_eq x y)) (py_set l')
  end.

(** ** The backing file *)

(** A computation that may read and replace the JSON object held by the
    manager's file and may raise. *)
Definition file_op (A : Type) : Type := dict -> result A * dict.

Definition ret {A} (a : A) : file_op A := fun file => (Ok a, file).

Definition raise {A} (e : exn) : file_op A := fun file => (Err e, file).

Definition bind {A B} (m : file_op A) (k : A -> file_op B) : file_op B :=
  fun file =>
    match m file with
    | (Ok a, file') => k a file'
    | (Err e, file') => (Err e, file')
    end.

(** The value or the exception of an expression that does not touch the
    file. *)
Definition lift {A} (r : result A) : file_op A := fun file => (r, file).

(** [json.load(file)]. *)
Definition json_load : file_op dict := fun file => (Ok file, file).

(** [file.seek(0); json.dump(d, file)]. *)
Definition json_dump (d : dict) : file_op unit := fun _ => (Ok tt, d).

Declare Scope file_scope.
Delimit Scope file_scope with file.
Notation "x <- m ;; k" := (bind m (fun x => k))
  (at level 61, m at next level, right associativity) : file_scope.
Notation "m ;; k" := (bind m (fun _ => k))
  (at level 61, right associativity) : file_scope.

(** [len(x) > n]. *)
Definition len_gt (x : json) (n : nat) : result bool :=
  l <- py_len x ;; Ok (Nat.ltb n l).

(** [a or b] and [a and b] evaluate [b] only when [a] does not decide. *)
Definition or_else (a b : result bool) : result bool :=
  x <- a ;; if x then Ok true else b.

Definition and_then (a b : result bool) : result bool :=
  x <- a ;; if x then b else Ok false.

(** [c[k]] for a string literal [k]. *)
Definition item (c : json) (k : string) : result json := py_getitem c (JStr k).

(** [c[k] == x] and [c[k] != x] for a string literal [k]. *)
Definition item_eq (c : json) (k : string) (x : json) : result bool :=
  v <- item c k ;; Ok (py_eq v x).

Definition item_ne (c : json) (k : string) (x : json) : result bool :=
  v <- item c k ;; Ok (negb (py_eq v x)).

(** [key in d and len(d[key]) > n] for a dictionary [d]. *)
Definition field_too_long (d : dict) (key : string) (n : nat) : result bool :=
  if dict_has key d then v <- item (JObj d) key ;; len_gt v n else Ok false.

(** The collection once the record that [py_getitem (JObj d) i] returned
    has become [v]. *)
Definition store_item (d : dict) (i v : json) : dict :=
  match i with
  | JStr k => dict_set k v d
  | _ => d
  end.

(** ** user_base.py *)

Module UserManager.

(** The request documents of the interface, by field; a field that the
    document leaves out reads as [JNull], which is what [.get] returns
    for it. *)
Record create_user_request : Type :=
  { cu_name : json; cu_display_name : json }.

Record describe_user_request : Type :=
  { du_id : json }.

(** ["user"] is a JSON object when it is given. *)
Record update_user_request : Type :=
  { uu_id : json; uu_user : option dict }.

Definition create_user (request : create_user_request) (now : string)
  : file_op json :=
  (let name := cu_name request in
   let display_name := cu_display_name request in
   if negb (truthy name) || negb (truthy display_name) then
     raise (ValueError "Name and display name are required")
   else
   too_long <- lift (or_else (len_gt name 64) (len_gt display_name 64)) ;;
   if too_long then
     raise (ValueError "Name and display name must be 64 characters or less")
   else
   users <- json_load ;;
   taken <- lift (any_m (fun user => item_eq user "name" name)
                        (values users)) ;;
   if taken then raise (ValueError "User name must be unique") else
   let user_id := str (List.length users + 1) in
   let users :=
     dict_set user_id
       (JObj [("name", name);
              ("display_name", display_name);
              ("creation_time", JStr now)]) users in
   json_dump users ;;
   ret (JObj [("status", JStr "success"); ("user_id", JStr user_id)]))%file.

(** The dictionary built from one stored user by [list_users] and by
    [describe_user]. *)
Definition user_view (user : json) : result json :=
  id <- item user "id" ;;
  name <- item user "name" ;;
  display_name <- item user "display_name" ;;
  creation_time <- item user "creation_time" ;;
  Ok (JObj [("id", id);
            ("name", name);
            ("display_name", display_name);
            ("creation_time", creation_time)]).

Definition list_users : file_op json :=
  (users <- json_load ;;
   users_list <- lift (map_m user_view (values users)) ;;
   ret (JObj [("status", JStr "success"); ("users_list", JArr users_list)]))%file.

Definition describe_user (request : describe_user_request) : file_op json :=
  (let user_id := du_id request in
   if negb (truthy user_id) then raise (ValueError "User ID is required") else
   users <- json_load ;;
   present <- lift (py_in user_id (JObj users)) ;;
   if negb present then raise (ValueError "User not found") else
   user <- lift (py_getitem (JObj users) user_id) ;;
   user_data <- lift (user_view user) ;;
   ret (JObj [("status", JStr "success"); ("user_data", user_data)]))%file.

Definition update_user (request : update_user_request) : file_op json :=
  (let user_id := uu_id request in
   let user_details := match uu_user request with Some d => d | None => [] end in
   if negb (truthy user_id) then raise (ValueError "User ID is required") else
   long_name <- lift (field_too_long user_details "name" 64) ;;
   if long_name then raise (ValueError "Name must be 64 characters or less") else
   long_display <- lift (field_too_long user_details "display_name" 128) ;;
   if long_display then
     raise (ValueError "Display name must be 128 characters or less")
   else
   users <- json_load ;;
   present <- lift (py_in user_id (JObj users)) ;;
   if negb present then raise (ValueError "User not found") else
   user <- lift (py_getitem (JObj users) user_id) ;;
   match user with
   | JObj fields =>
       let users := store_item users user_id
                      (JObj (dict_update user_details fields)) in
       json_dump users ;;
       ret (JObj [("status", JStr "success");
                  ("user_data", JObj [("id", user_id)])])
   | _ => raise AttributeError
   end)%file.

(** The dictionary that [get_user_teams] builds from one team. *)
Definition team_summary (team : json) : result json :=
  name <- item team "name" ;;
  description <- item team "description" ;;
  creation_time <- item team "creation_time" ;;
  Ok (JObj [("name", name);
            ("description", description);
            ("creation_time", creation_time)]).

(** [user_id in team.get("users", [])]. *)
Definition is_member (user_id team : json) : result bool :=
  members <- py_get team "users" (JArr []) ;;
  py_in user_id members.

(** The loop of [get_user_teams] over [teams.items()]. *)
Fixpoint teams_of_user (user_id : json) (teams : dict) : result (list json) :=
  match teams with
  | [] => Ok []
  | (team_id, team) :: rest =>
      member <- is_member user_id team ;;
      if member then
        summary <- team_summary team ;;
        others <- teams_of_user user_id rest ;;
        Ok (summary :: others)
      else teams_of_user user_id rest
  end.

(** [get_user_teams] does not read the manager's own file: it opens
    'db/teams.json'.  [teams_file] is the JSON object which that file
    holds, or [None] when [os.path.exists] finds no such file. *)
Definition get_user_teams (request : describe_user_request)
  (teams_file : option dict) : result json :=
  let user_id := du_id request in
  if negb (truthy user_id) then Err (ValueError "User ID is required") else
  match teams_file with
  | None => Err (ValueError "Teams database not found")
  | Some teams =>
      user_teams <- teams_of_user user_id teams ;;
      Ok (JArr user_teams)
  end.

End UserManager.

(** ** team_base.py *)

Module TeamManager.

Record create_team_request : Type :=
  { ct_name : json; ct_description : json; ct_admin : json }.

Record team_id_request : Type :=
  { tr_id : json }.

(** ["team"] is a JSON object when it is given. *)
Record update_team_request : Type :=
  { ut_id : json; ut_team : option dict }.

(** ["users"] is left out ([None]) or given; [.get('users', [])] reads an
    empty list when it is left out. *)
Record team_users_request : Type :=
  { tu_id : json; tu_users : option json }.

Definition create_team (request : create_team_request) (now : string)
  : file_op json :=
  (let name := ct_name request in
   let description := ct_description request in
   let admin := ct_admin request in
   if negb (truthy name) || negb (truthy description) || negb (truthy admin)
   then raise (ValueError "Name, description, and admin are required") else
   long_name <- lift (len_gt name 64) ;;
   if long_name then raise (ValueError "Name must be 64 characters or less") else
   long_description <- lift (len_gt description 128) ;;
   if long_description then
     raise (ValueError "Description must be 128 characters or less")
   else
   teams <- json_load ;;
   taken <- lift (any_m (fun team => item_eq team "name" name) (values teams)) ;;
   if taken then raise (ValueError "Team name must be unique") else
   let team_id := str (List.length teams + 1) in
   let teams :=
     dict_set team_id
       (JObj [("name", name);
              ("description", description);
              ("admin", admin);
              ("creation_time", JStr now);
              ("users", JArr [])]) teams in
   json_dump teams ;;
   ret (JObj [("id", JStr team_id)]))%file.

(** The dictionary built from one stored team by [list_teams] and by
    [describe_team]. *)
Definition team_view (team : json) : result json :=
  name <- item team "name" ;;
  description <- item team "description" ;;
  creation_time <- item team "creation_time" ;;
  admin <- item team "admin" ;;
  Ok (JObj [("name", name);
            ("description", description);
            ("creation_time", creation_time);
            ("admin", admin)]).


Definition describe_team (request : team_id_request) : file_op json :=
  (let team_id := tr_id request in
   if negb (truthy team_id) then raise (ValueError "Team ID is required") else
   teams <- json_load ;;
   present <- lift (py_in team_id (JObj teams)) ;;
   if negb present then raise (ValueError "Team not found") else
   team <- lift (py_getitem (JObj teams) team_id) ;;
   lift (team_view team))%file.

(** [team['name'] == new_name], asked of the teams that differ from
    [teams[team_id]]. *)
Definition other_team_has_name (teams : dict) (team_id new_name team : json)
  : result bool :=
  self <- py_getitem (JObj teams) team_id ;;
  if negb (py_eq team self) then item_eq team "name" new_name else Ok false.

Definition update_team (request : update_team_request) : file_op json :=
  (let team_id := ut_id request in
   let team_updates := match ut_team request with Some d => d | None => [] end in
   if negb (truthy team_id) then raise (ValueError "Team ID is required") else
   long_name <- lift (field_too_long team_updates "name" 64) ;;
   if long_name then raise (ValueError "Name must be 64 characters or less") else
   long_description <- lift (field_too_long team_updates "description" 128) ;;
   if long_description then
     raise (ValueError "Description must be 128 characters or less")
   else
   teams <- json_load ;;
   present <- lift (py_in team_id (JObj teams)) ;;
   if negb present then raise (ValueError "Team not found") else
   taken <- lift (match dict_get "name" team_updates with
                  | Some new_name =>
                      any_m (other_team_has_name teams team_id new_name)
                            (values teams)
                  | None => Ok false
                  end) ;;
   if taken then raise (ValueError "Team name must be unique") else
   team <- lift (py_getitem (JObj teams) team_id) ;;
   match team with
   | JObj fields =>
       let teams := store_item teams team_id
                      (JObj (dict_update team_updates fields)) in
       json_dump teams ;;
       ret (JObj [("id", team_id)])
   | _ => raise AttributeError
   end)%file.

(** [list(set(xs))]: the elements of [xs] must be hashable; [order] is
    the order in which the set yields them, which Python does not fix. *)
Definition list_of_set (order : list json -> list json) (xs : json)
  : result json :=
  elems <- py_iter xs ;;
  if forallb hashable elems then Ok (JArr (order (py_set elems)))
  else Err TypeError.

Definition add_users_to_team (order : list json -> list json)
  (request : team_users_request) : file_op json :=
  (let team_id := tu_id request in
   let users := match tu_users request with Some u => u | None => JArr [] end in
   if negb (truthy team_id) then raise (ValueError "Team ID is required") else
   too_many <- lift (len_gt users 50) ;;
   if too_many then
     raise (ValueError "Cannot add more than 50 users to a team")
   else
   teams <- json_load ;;
   present <- lift (py_in team_id (JObj teams)) ;;
   if negb present then raise (ValueError "Team not found") else
   team <- lift (py_getitem (JObj teams) team_id) ;;
   members <- lift (item team "users") ;;
   joined <- lift (py_add members users) ;;
   members <- lift (list_of_set order joined) ;;
   team <- lift (py_setitem team "users" members) ;;
   let teams := store_item teams team_id team in
   json_dump teams ;;
   ret (JObj [("id", team_id)]))%file.

Definition remove_users_from_team (request : team_users_request)
  : file_op json :=
  (let team_id := tu_id request in
   let users := match tu_users request with Some u => u | None => JArr [] end in
   if negb (truthy team_id) then raise (ValueError "Team ID is required") else
   teams <- json_load ;;
   present <- lift (py_in team_id (JObj teams)) ;;
   if negb present then raise (ValueError "Team not found") else
   team <- lift (py_getitem (JObj teams) team_id) ;;
   members <- lift (item team "users") ;;
   members <- lift (py_iter members) ;;
   kept <- lift (map_m (fun user => b <- py_in user users ;; Ok (user, negb b))%py
                       members) ;;
   let kept := map fst (filter snd kept) in
   team <- lift (py_setitem team "users" (JArr kept)) ;;
   let teams := store_item teams team_id team in
   json_dump teams ;;
   ret (JObj [("id", team_id)]))%file.

(** What a call can pass for a parameter of [describe_user]: a
    [UserManager] with the content of its backing file, or a string,
    given by the request document it holds. *)
Inductive argument : Type :=
| Instance (users_file : dict)
| Text (request : UserManager.describe_user_request).

(** [UserManager.describe_user(...)]: the function is looked up on the
    class, so nothing is bound to [self] implicitly and the positional
    arguments fill the parameters [(self, request)] in order.  A call
    that leaves a parameter without an argument, or has one too many,
    raises TypeError before the body runs. *)
Definition call_describe_user (args : list argument) : result json :=
  match args with
  | [self; request] =>
      match request, self with
      | Text request, Instance users_file =>
          fst (UserManager.describe_user request users_file)
      | Text request, Text _ =>
          if negb (truthy (UserManager.du_id request))
          then Err (ValueError "User ID is required")
          else Err AttributeError
      | Instance _, _ => Err TypeError
      end
  | _ => Err TypeError
  end.

(** One turn of the loop of [list_team_users]. *)
Definition team_user (user_id : json) : result json :=
  user_details <- call_describe_user [Text {| UserManager.du_id := user_id |}] ;;
  name <- item user_details "name" ;;
  display_name <- item user_details "display_name" ;;
  Ok (JObj [("id", user_id);
            ("name", name);
            ("display_name", display_name)]).

Definition list_team_users (request : team_id_request) : file_op json :=
  (let team_id := tr_id request in
   if negb (truthy team_id) then raise (ValueError "Team ID is required") else
   teams <- json_load ;;
   present <- lift (py_in team_id (JObj teams)) ;;
   if negb present then raise (ValueError "Team not found") else
   team <- lift (py_getitem (JObj teams) team_id) ;;
   members <- lift (item team "users") ;;
   members <- lift (py_iter members) ;;
   team_users <- lift (map_m team_user members) ;;
   ret (JArr team_users))%file.

End TeamManager.

(** ** project_board_base.py *)

Module ProjectBoardManager.

Record create_board_request : Type :=
  { cb_name : json; cb_description : json; cb_team_id : json }.

Record board_id_request : Type :=
  { br_id : json }.

Record add_task_request : Type :=
  { at_title : json; at_description : json; at_user_id : json;
    at_board_id : json }.

Record update_task_status_request : Type :=
  { ts_id : json; ts_status : json }.

Definition create_board (request : create_board_request) (now : string)
  : file_op json :=
  (let name := cb_name request in
   let description := cb_description request in
   let team_id := cb_team_id request in
   if negb (truthy name) || negb (truthy description) || negb (truthy team_id)
   then raise (ValueError "Name, description, and team ID are required") else
   long_name <- lift (len_gt name 64) ;;
   if long_name then raise (ValueError "Name must be 64 characters or less") else
   long_description <- lift (len_gt description 128) ;;
   if long_description then
     raise (ValueError "Description must be 128 characters or less")
   else
   boards <- json_load ;;
   taken <- lift (any_m (fun board =>
                           and_then (item_eq board "name" name)
                                    (item_eq board "team_id" team_id))
                        (values boards)) ;;
   if taken then
     raise (ValueError
              "Board name must be unique for the team, Board name already exists")
   else
   let board_id := str (List.length boards + 1) in
   let boards :=
     dict_set board_id
       (JObj [("name", name);
              ("description", description);
              ("team_id", team_id);
              ("status", JStr "OPEN");
              ("creation_time", JStr now);
              ("tasks", JObj [])]) boards in
   json_dump boards ;;
   ret (JObj [("id", JStr board_id)]))%file.

Definition close_board (request : board_id_request) (now : string)
  : file_op json :=
  (let board_id := br_id request in
   if negb (truthy board_id) then raise (ValueError "Board ID is required") else
   boards <- json_load ;;
   present <- lift (py_in board_id (JObj boards)) ;;
   if negb present then raise (ValueError "Board not found") else
   board <- lift (py_getitem (JObj boards) board_id) ;;
   tasks <- lift (item board "tasks") ;;
   tasks <- lift (py_values tasks) ;;
   incomplete <- lift (any_m (fun task => item_ne task "status" (JStr "COMPLETE"))
                             tasks) ;;
   if incomplete then
     raise (ValueError "Cannot close board with incomplete tasks")
   else
   board <- lift (py_setitem board "status" (JStr "CLOSED")) ;;
   board <- lift (py_setitem board "end_time" (JStr now)) ;;
   let boards := store_item boards board_id board in
   json_dump boards ;;
   ret (JObj [("id", board_id)]))%file.

Definition add_task (request : add_task_request) (now : string)
  : file_op json :=
  (let title := at_title request in
   let description := at_description request in
   let user_id := at_user_id request in
   let board_id := at_board_id request in
   if negb (truthy title) || negb (truthy description)
      || negb (truthy user_id) || negb (truthy board_id)
   then raise (ValueError "Title, description, user ID, and board ID are required")
   else
   long_title <- lift (len_gt title 64) ;;
   if long_title then raise (ValueError "Title must be 64 characters or less") else
   long_description <- lift (len_gt description 128) ;;
   if long_description then
     raise (ValueError "Description must be 128 characters or less")
   else
   boards <- json_load ;;
   present <- lift (py_in board_id (JObj boards)) ;;
   if negb present then raise (ValueError "Board not found") else
   board <- lift (py_getitem (JObj boards) board_id) ;;
   not_open <- lift (item_ne board "status" (JStr "OPEN")) ;;
   if not_open then raise (ValueError "Cannot add task to a closed board") else
   tasks <- lift (item board "tasks") ;;
   task_list <- lift (py_values tasks) ;;
   taken <- lift (any_m (fun task => item_eq task "title" title) task_list) ;;
   if taken then raise (ValueError "Task title must be unique for the board") else
   count <- lift (py_len tasks) ;;
   let task_id := str (count + 1) in
   tasks <- lift (py_setitem tasks task_id
                    (JObj [("title", title);
                           ("description", description);
                           ("user_id", user_id);
                           ("status", JStr "OPEN");
                           ("creation_time", JStr now)])) ;;
   let board := with_item board (JStr "tasks") tasks in
   let boards := store_item boards board_id board in
   json_dump boards ;;
   ret (JObj [("id", JStr task_id)]))%file.

(** The loop of [update_task_status] over [boards.values()]: the boards
    after the assignment in the first board whose tasks contain
    [task_id], or [None] when the loop ends without finding one. *)
Fixpoint set_first_match (task_id status : json) (boards : dict)
  : result (option dict) :=
  match boards with
  | [] => Ok None
  | (board_id, board) :: rest =>
      tasks <- item board "tasks" ;;
      found <- py_in task_id tasks ;;
      if found then
        task <- py_getitem tasks task_id ;;
        task <- py_setitem task "status" status ;;
        let board := with_item board (JStr "tasks") (with_item tasks task_id task) in
        Ok (Some ((board_id, board) :: rest))
      else
        rest <- set_first_match task_id status rest ;;
        Ok (option_map (cons (board_id, board)) rest)
  end.

Definition update_task_status (request : update_task_status_request)
  : file_op json :=
  (let task_id := ts_id request in
   let status := ts_status request in
   if negb (truthy task_id) || negb (truthy status) then
     raise (ValueError "Task ID and status are required")
   else
   if negb (existsb (fun s => py_eq s status)
                    [JStr "OPEN"; JStr "IN_PROGRESS"; JStr "COMPLETE"])
   then raise (ValueError "Invalid status value") else
   boards <- json_load ;;
   updated <- lift (set_first_match task_id status boards) ;;
   match updated with
   | Some boards => json_dump boards ;; ret (JObj [("id", task_id)])
   | None => raise (ValueError "Task not found")
   end)%file.



End ProjectBoardManager.

(** ** Collections as a whole *)

(** The keys of the collection are "1", "2", ... in this order. *)
Definition sequential (d : dict) : Prop :=
  keys d = map str (seq 1 (List.length d)).


(** Two stored records carry equal names. *)
Definition same_name (a b : json) : bool :=
  match item a "name", item b "name" with
  | Ok x, Ok y => py_eq x y
  | _, _ => false
  end.

(** No two records of the list carry equal names. *)
Fixpoint names_unique (records : list json) : bool :=
  match records with
  | [] => true
  | r :: rest => forallb (fun r' => negb (same_name r r')) rest && names_unique rest
  end.

Definition is_closed (board : json) : bool :=
  match item board "status" with
  | Ok s => py_eq s (JStr "CLOSED")
  | Err _ => false
  end.

Definition task_complete (task : json) : bool :=
  match item task "status" with
  | Ok s => py_eq s (JStr "COMPLETE")
  | Err _ => false
  end.

(** The tasks of a board: the values of its ["tasks"] dictionary. *)
Definition tasks_of (board : json) : list json :=
  match item board "tasks" with
  | Ok (JObj tasks) => values tasks
  | _ => []
  end.

(** A CLOSED board has only COMPLETE tasks. *)
Definition board_settled (board : json) : bool :=
  if is_closed board then forallb task_complete (tasks_of board) else true.

Definition closed_complete (boards : dict) : bool :=
  forallb board_settled (values boards).

(** The operations of [UserManager] that write to its file. *)
Inductive user_op : Type :=
| CreateUser (request : UserManager.create_user_request) (now : string)
| UpdateUser (request : UserManager.update_user_request).

Definition run_user_op (op : user_op) : file_op json :=
  match op with
  | CreateUser request now => UserManager.create_user request now
  | UpdateUser request => UserManager.update_user request
  end.

(** The collections a user file can hold when it starts empty and is
    only written by operations that succeed. *)
Inductive user_reachable : dict -> Prop :=
| user_reachable_empty : user_reachable []
| user_reachable_step op users response users' :
    user_reachable users ->
    run_user_op op users = (Ok response, users') ->
    user_reachable users'.

(** The operations of [TeamManager] that write to its file. *)
Inductive team_op : Type :=
| CreateTeam (request : TeamManager.create_team_request) (now : string)
| UpdateTeam (request : TeamManager.update_team_request)
| AddUsers (order : list json -> list json)
    (request : TeamManager.team_users_request)
| RemoveUsers (request : TeamManager.team_users_request).

Definition run_team_op (op : team_op) : file_op json :=
  match op with
  | CreateTeam request now => TeamManager.create_team request now
  | UpdateTeam request => TeamManager.update_team request
  | AddUsers order request => TeamManager.add_users_to_team order request
  | RemoveUsers request => TeamManager.remove_users_from_team request
  end.

Inductive team_reachable : dict -> Prop :=
| team_reachable_empty : team_reachable []
| team_reachable_step op teams response teams' :
    team_reachable teams ->
    run_team_op op teams = (Ok response, teams') ->
    team_reachable teams'.

(** The operations of [ProjectBoardManager] that write to its file. *)
Inductive board_op : Type :=
| CreateBoard (request : ProjectBoardManager.create_board_request) (now : string)
| CloseBoard (request : ProjectBoardManager.board_id_request) (now : string)
| AddTask (request : ProjectBoardManager.add_task_request) (now : string)
| UpdateTaskStatus (request : ProjectBoardManager.update_task_status_request).

Definition run_board_op (op : board_op) : file_op json :=
  match op with
  | CreateBoard request now => ProjectBoardManager.create_board request now
  | CloseBoard request now => ProjectBoardManager.close_board request now
  | AddTask request now => ProjectBoardManager.add_task request now
  | UpdateTaskStatus request => ProjectBoardManager.update_task_status request
  end.

(** The collections a board file can hold when it starts empty and is
    only written by operations that succeed. *)
Inductive board_reachable : dict -> Prop :=
| reachable_empty : board_reachable []
| reachable_step op boards response boards' :
    board_reachable boards ->
    run_board_op op boards = (Ok response, boards') ->
    board_reachable boards'.

(** [task_id in board['tasks']] holds. *)
Definition holds_task (task_id board : json) : bool :=
  match item board "tasks" with
  | Ok tasks =>
      match py_in task_id tasks with
      | Ok found => found
      | Err _ => false
      end
  | Err _ => false
  end.


(** The values that [update_task_status] accepts as a status. *)
Definition statuses : list json :=
  [JStr "OPEN"; JStr "IN_PROGRESS"; JStr "COMPLETE"].

(** The board on which [update_task_status] acts: the first one, in the
    order of the collection, whose tasks contain [task_id]. *)
Definition target_board (task_id : json) (boards : dict) : option json :=
  find (holds_task task_id) (values boards).

(** The operation sets a status other than COMPLETE on a task of a
    CLOSED board. *)
Definition reopens_closed_task (op : board_op) (boards : dict) : bool :=
  match op with
  | UpdateTaskStatus request =>
      negb (py_eq (ProjectBoardManager.ts_status request) (JStr "COMPLETE"))
      && match target_board (ProjectBoardManager.ts_id request) boards with
         | Some board => is_closed board
         | None => false
         end
  | _ => false
  end.
(** One board, created for team 1, whose single task was set to COMPLETE
    before the board was closed. *)
Definition closed_sprint : dict :=
  [("1",
    JObj [("name", JStr "Sprint1");
          ("description", JStr "d");
          ("team_id", JStr "1");
          ("status", JStr "CLOSED");
          ("creation_time", JStr "2024-05-01T09:00:00");
          ("tasks",
           JObj [("1",
                  JObj [("title", JStr "T1");
                        ("description", JStr "d");
                        ("user_id", JStr "1");
                        ("status", JStr "COMPLETE");
                        ("creation_time", JStr "2024-05-01T10:00:00")])]);
          ("end_time", JStr "2024-05-01T12:00:00")])].

(** The board before its task was completed: OPEN, with task T1 OPEN. *)
Definition open_sprint : dict :=
  [("1",
    JObj [("name", JStr "Sprint1");
          ("description", JStr "d");
          ("team_id", JStr "1");
          ("status", JStr "OPEN");
          ("creation_time", JStr "2024-05-01T09:00:00");
          ("tasks",
           JObj [("1",
                  JObj [("title", JStr "T1");
                        ("description", JStr "d");
                        ("user_id", JStr "1");
                        ("status", JStr "OPEN");
                        ("creation_time", JStr "2024-05-01T10:00:00")])])])].

(** The same board with its task back to IN_PROGRESS. *)
Definition reopened_sprint : dict :=
  [("1",
    JObj [("name", JStr "Sprint1");
          ("description", JStr "d");
          ("team_id", JStr "1");
          ("status", JStr "CLOSED");
          ("creation_time", JStr "2024-05-01T09:00:00");
          ("tasks",
           JObj [("1",
                  JObj [("title", JStr "T1");
                        ("description", JStr "d");
                        ("user_id", JStr "1");
                        ("status", JStr "IN_PROGRESS");
                        ("creation_time", JStr "2024-05-01T10:00:00")])]);
          ("end_time", JStr "2024-05-01T12:00:00")])].

(** One team, created by user 1, to which user 1 was added. *)
Definition team_with_member : dict :=
  [("1",
    JObj [("name", JStr "core");
          ("description", JStr "d");
          ("admin", JStr "1");
          ("creation_time", JStr "2024-05-01T09:00:00");
          ("users", JArr [JStr "1"])])].

(** Two users, alice and bob, as [create_user] stores them. *)
Definition two_users : dict :=
  [("1",
    JObj [("name", JStr "alice");
          ("display_name", JStr "Alice A");
          ("creation_time", JStr "2024-05-01T09:00:00")]);
   ("2",
    JObj [("name", JStr "bob");
          ("display_name", JStr "Bob B");
          ("creation_time", JStr "2024-05-01T09:05:00")])].

(** Two teams, core and infra, as [create_team] stores them. *)
Definition two_teams : dict :=
  [("1",
    JObj [("name", JStr "core");
          ("description", JStr "d");
          ("admin", JStr "1");
          ("creation_time", JStr "2024-05-01T09:00:00");
          ("users", JArr [])]);
   ("2",
    JObj [("name", JStr "infra");
          ("description", JStr "d");
          ("admin", JStr "1");
          ("creation_time", JStr "2024-05-01T09:05:00");
          ("users", JArr [])])].

(** Two OPEN boards of team 1; each has one task, and [add_task] gave
    both tasks the id 1. *)
Definition two_boards : dict :=
  [("1",
    JObj [("name", JStr "Sprint1");
          ("description", JStr "d");
          ("team_id", JStr "1");
          ("status", JStr "OPEN");
          ("creation_time", JStr "2024-05-01T09:00:00");
          ("tasks",
           JObj [("1",
                  JObj [("title", JStr "T1");
                        ("description", JStr "d");
                        ("user_id", JStr "1");
                        ("status", JStr "OPEN");
                        ("creation_time", JStr "2024-05-01T10:00:00")])])]);
   ("2",
    JObj [("name", JStr "Sprint2");
          ("description", JStr "d");
          ("team_id", JStr "1");
          ("status", JStr "OPEN");
          ("creation_time", JStr "2024-05-01T09:30:00");
          ("tasks",
           JObj [("1",
                  JObj [("title", JStr "U1");
                        ("description", JStr "d");
                        ("user_id", JStr "2");
                        ("status", JStr "OPEN");
                        ("creation_time", JStr "2024-05-01T10:30:00")])])])].

(** The record is a dictionary that has each of the keys. *)
Definition has_keys (ks : list string) (record : json) : bool :=
  match record with
  | JObj fields => forallb (fun k => dict_has k fields) ks
  | _ => false
  end.

(** A team with the keys that [create_team] writes. *)
Definition team_shaped (team : json) : bool :=
  has_keys ["name"; "description"; "admin"; "creation_time"; "users"] team.

(** A task with the keys that [add_task] writes and one of the three
    statuses. *)
Definition task_shaped (task : json) : bool :=
  has_keys ["title"; "description"; "user_id"; "status"; "creation_time"] task
  && match item task "status" with
     | Ok s => existsb (fun x => py_eq x s) statuses
     | Err _ => false
     end.

(** The dictionary of tasks of a board. *)
Definition tasks_dict (board : json) : dict :=
  match item board "tasks" with
  | Ok (JObj tasks) => tasks
  | _ => []
  end.

(** A board with the keys that [create_board] writes, status OPEN or
    CLOSED, and a dictionary of tasks. *)
Definition board_shaped (board : json) : bool :=
  has_keys ["name"; "description"; "team_id"; "status"; "creation_time"; "tasks"]
    board
  && match item board "status" with
     | Ok s => py_eq s (JStr "OPEN") || py_eq s (JStr "CLOSED")
     | Err _ => false
     end
  && match item board "tasks" with
     | Ok (JObj tasks) => forallb task_shaped (values tasks)
     | _ => false
     end.


(** No record of the list is the same as a later one. *)
Fixpoint all_distinct (same : json -> json -> bool) (records : list json)
  : bool :=
  match records with
  | [] => true
  | r :: rest =>
      forallb (fun r' => negb (same r r')) rest && all_distinct same rest
  end.

(** Two boards carry equal names and equal team ids. *)
Definition same_board (a b : json) : bool :=
  match item a "name", item a "team_id", item b "name", item b "team_id" with
  | Ok n, Ok t, Ok n', Ok t' => py_eq n n' && py_eq t t'
  | _, _, _, _ => false
  end.


(** * Properties *)

(** ** Dictionaries *)

Lemma dict_get_set_same k v d : dict_get k (dict_set k v d) = Some v.
Proof.
  induction d as [|[k' v'] d IH]; simpl.
  - now rewrite String.eqb_refl.
  - destruct (String.eqb k k') eqn:E; simpl; rewrite E; auto.
Qed.

Lemma dict_get_set_other k k' v d :
  k <> k' -> dict_get k' (dict_set k v d) = dict_get k' d.
Proof.
  intros Hne. induction d as [|[k0 v0] d IH]; simpl.
  - destruct (String.eqb k' k) eqn:E; auto.
    apply String.eqb_eq in E. congruence.
  - destruct (String.eqb k k0) eqn:E; simpl.
    + apply String.eqb_eq in E. subst k0.
      destruct (String.eqb k' k) eqn:E'; auto.
      apply String.eqb_eq in E'. congruence.
    + now rewrite IH.
Qed.

Lemma dict_has_set_same k v d : dict_has k (dict_set k v d) = true.
Proof. unfold dict_has. now rewrite dict_get_set_same. Qed.

Lemma in_values_dict_set k v d : In v (values (dict_set k v d)).
Proof.
  induction d as [|[k' v'] d IH]; simpl; auto.
  destruct (String.eqb k k'); simpl; auto.
Qed.

Lemma map_m_err {A B} (f : A -> result B) l x e :
  In x l -> f x = Err e -> exists e', map_m f l = Err e'.
Proof.
  induction l as [|y l IH]; simpl; [tauto|].
  intros [->|Hin] Hx.
  - rewrite Hx. simpl. eauto.
  - destruct (f y); simpl; eauto.
    destruct (IH Hin Hx) as [e' ->]. simpl. eauto.
Qed.

Lemma str_inj n m : str n = str m -> n = m.
Proof.
  unfold str. intros H.
  apply Unsigned.to_uint_inj.
  assert (Some (Nat.to_uint n) = Some (Nat.to_uint m)) as E
    by (rewrite <- !NilEmpty.usu; now rewrite H).
  now inversion E.
Qed.

Lemma str_nonempty n : str n <> "".
Proof.
  intros H. assert (n = 0) as ->.
  { rewrite <- (Unsigned.of_to n).
    assert (Some (Nat.to_uint n) = Some Decimal.Nil) as E
      by (rewrite <- NilEmpty.usu; unfold str in H; now rewrite H).
    inversion E as [E']. now rewrite E'. }
  discriminate H.
Qed.

(** ** Python operations *)

Lemma truthy_str k : k <> "" -> truthy (JStr k) = true.
Proof.
  intros H. simpl. destruct (String.eqb k "") eqn:E; auto.
  apply String.eqb_eq in E. contradiction.
Qed.

Lemma py_eq_str v s : py_eq v (JStr s) = true -> v = JStr s.
Proof.
  destruct v; simpl; try discriminate.
  intros H. apply String.eqb_eq in H. now subst.
Qed.

Lemma py_eq_str_refl s : py_eq (JStr s) (JStr s) = true.
Proof. apply String.eqb_refl. Qed.

Lemma item_inv c k v :
  item c k = Ok v -> exists fields, c = JObj fields /\ dict_get k fields = Some v.
Proof.
  unfold item. destruct c; simpl; try discriminate.
  intros H. exists o. split; auto.
  destruct (dict_get k o); now inversion H.
Qed.

Lemma item_obj k fields v :
  dict_get k fields = Some v -> item (JObj fields) k = Ok v.
Proof. unfold item. simpl. now intros ->. Qed.

Lemma lookup_inv d i :
  py_in i (JObj d) = Ok true ->
  exists k v, i = JStr k /\ dict_get k d = Some v
              /\ py_getitem (JObj d) i = Ok v.
Proof.
  destruct i; simpl; try discriminate.
  unfold dict_has. destruct (dict_get s d) eqn:E; try discriminate.
  intros _. exists s, j. auto.
Qed.

Lemma py_values_inv c l :
  py_values c = Ok l -> exists o, c = JObj o /\ l = values o.
Proof. destruct c; simpl; try discriminate. intros H. inversion H. eauto. Qed.

Lemma py_setitem_inv c k v c' :
  py_setitem c k v = Ok c' -> exists o, c = JObj o /\ c' = JObj (dict_set k v o).
Proof. destruct c; simpl; try discriminate. intros H. inversion H. eauto. Qed.

Lemma any_m_false {A} (f : A -> result bool) l :
  any_m f l = Ok false -> forall x, In x l -> f x = Ok false.
Proof.
  induction l as [|y l IH]; simpl; [tauto|].
  destruct (f y) as [[|]|] eqn:E; simpl; try discriminate.
  intros H x [<-|Hin]; auto.
Qed.

Lemma any_m_all_false {A} (f : A -> result bool) l :
  (forall x, In x l -> f x = Ok false) -> any_m f l = Ok false.
Proof.
  induction l as [|y l IH]; simpl; auto.
  intros H. rewrite (H y) by auto. simpl. auto.
Qed.

Lemma any_m_hit {A} (f : A -> result bool) l x :
  In x l -> f x = Ok true -> any_m f l <> Ok false.
Proof.
  intros Hin Hx H. rewrite (any_m_false f l H x Hin) in Hx. discriminate.
Qed.

Lemma forallb_values_dict_set (P : json -> bool) k v d :
  forallb P (values d) = true -> P v = true ->
  forallb P (values (dict_set k v d)) = true.
Proof.
  intros Hd Hv. induction d as [|[k' v'] d IH]; simpl in *.
  - now rewrite Hv.
  - apply andb_true_iff in Hd as [H1 H2].
    destruct (String.eqb k k'); simpl.
    + now rewrite Hv, H2.
    + now rewrite H1, IH.
Qed.

Lemma dict_get_in_values k d v : dict_get k d = Some v -> In v (values d).
Proof.
  induction d as [|[k' v'] d IH]; simpl; [discriminate|].
  destruct (String.eqb k k'); auto.
  intros H. inversion H. auto.
Qed.

(** ** Running the operations *)

Ltac run := unfold bind, lift, raise, ret, json_load, json_dump in *.

(** An operation that raises leaves the file as it was. *)
Ltac failed := eexists; reflexivity.

(** Case analysis on every test that the body of an operation makes. *)
Ltac crunch :=
  repeat match goal with
    | |- context [match ?x with _ => _ end] => destruct x eqn:?
    end.

Ltac frame := run; crunch; intros H; inversion H; reflexivity.


(** ** Users *)

(** C1, evaluated on the code: whenever [create_user] succeeds, the
    record it has stored under the returned id holds the name and the
    display name of the request, but [describe_user] on that id raises
    KeyError for the key "id", which [create_user] never stores, and
    [list_users] raises as well. *)
Theorem created_user_cannot_be_read request now users response users' :
  UserManager.create_user request now users = (Ok response, users') ->
  exists user_id,
    response = JObj [("status", JStr "success"); ("user_id", JStr user_id)]
    /\ dict_get user_id users' =
         Some (JObj [("name", UserManager.cu_name request);
                     ("display_name", UserManager.cu_display_name request);
                     ("creation_time", JStr now)])
    /\ UserManager.describe_user {| UserManager.du_id := JStr user_id |} users'
       = (Err (KeyError (JStr "id")), users')
    /\ exists e, UserManager.list_users users' = (Err e, users').
Proof.
  unfold UserManager.create_user. run.
  destruct (negb (truthy (UserManager.cu_name request))
            || negb (truthy (UserManager.cu_display_name request)));
    [discriminate|].
  destruct (or_else _ _) as [[|]|]; try discriminate.
  destruct (any_m _ _) as [[|]|]; try discriminate.
  intros H. inversion H; subst; clear H.
  set (user_id := str (List.length users + 1)).
  set (user := JObj [("name", _); _; _]).
  exists user_id. split; [reflexivity|]. split; [apply dict_get_set_same|].
  split.
  - unfold UserManager.describe_user. run.
    cbn [UserManager.du_id].
    rewrite truthy_str by apply str_nonempty.
    cbn [negb py_in]. rewrite dict_has_set_same.
    cbn [negb py_getitem]. rewrite dict_get_set_same. reflexivity.
  - unfold UserManager.list_users. run.
    destruct (map_m_err UserManager.user_view
                (values (dict_set user_id user users)) user (KeyError (JStr "id")))
      as [e ->]; [apply in_values_dict_set | reflexivity | eauto].
Qed.

Lemma created_user_cannot_be_read_witness :
  exists user_id,
    JObj [("status", JStr "success"); ("user_id", JStr "1")]
    = JObj [("status", JStr "success"); ("user_id", JStr user_id)]
    /\ dict_get user_id
         [("1", JObj [("name", JStr "alice");
                      ("display_name", JStr "Alice A");
                      ("creation_time", JStr "2024-05-01T09:00:00")])]
       = Some (JObj [("name", JStr "alice");
                     ("display_name", JStr "Alice A");
                     ("creation_time", JStr "2024-05-01T09:00:00")])
    /\ UserManager.describe_user {| UserManager.du_id := JStr user_id |}
         [("1", JObj [("name", JStr "alice");
                      ("display_name", JStr "Alice A");
                      ("creation_time", JStr "2024-05-01T09:00:00")])]
       = (Err (KeyError (JStr "id")),
          [("1", JObj [("name", JStr "alice");
                       ("display_name", JStr "Alice A");
                       ("creation_time", JStr "2024-05-01T09:00:00")])])
    /\ exists e,
        UserManager.list_users
          [("1", JObj [("name", JStr "alice");
                       ("display_name", JStr "Alice A");
                       ("creation_time", JStr "2024-05-01T09:00:00")])]
        = (Err e,
           [("1", JObj [("name", JStr "alice");
                        ("display_name", JStr "Alice A");
                        ("creation_time", JStr "2024-05-01T09:00:00")])]).
Proof.
  exact (created_user_cannot_be_read
           {| UserManager.cu_name := JStr "alice";
              UserManager.cu_display_name := JStr "Alice A" |}
           "2024-05-01T09:00:00" [] _ _ eq_refl).
Defined.

(** ** Project boards *)

Import ProjectBoardManager.

(** An operation that raises has not written to the file. *)
Lemma create_board_frame request now boards e boards' :
  create_board request now boards = (Err e, boards') -> boards' = boards.
Proof. unfold create_board. frame. Qed.

Lemma close_board_frame request now boards e boards' :
  close_board request now boards = (Err e, boards') -> boards' = boards.
Proof. unfold close_board. frame. Qed.

Lemma add_task_frame request now boards e boards' :
  add_task request now boards = (Err e, boards') -> boards' = boards.
Proof. unfold add_task. frame. Qed.


(** When [close_board] succeeds, the board was stored under the given
    id with every task COMPLETE, and only that board has changed. *)
Lemma close_board_inv request now boards response boards' :
  close_board request now boards = (Ok response, boards') ->
  exists k fields tasks,
    br_id request = JStr k
    /\ dict_get k boards = Some (JObj fields)
    /\ dict_get "tasks" fields = Some (JObj tasks)
    /\ forallb task_complete (values tasks) = true
    /\ response = JObj [("id", JStr k)]
    /\ boards' =
       dict_set k
         (JObj (dict_set "end_time" (JStr now)
                  (dict_set "status" (JStr "CLOSED") fields))) boards.
Proof.
  unfold close_board. run.
  destruct (negb (truthy (br_id request))); [discriminate|].
  destruct (py_in _ _) as [[|]|] eqn:Hin; try discriminate.
  apply lookup_inv in Hin as (k & board & Hid & Hget & ->). cbn [negb].
  destruct (item board "tasks") as [tasks|] eqn:Htasks; [|discriminate].
  apply item_inv in Htasks as (fields & -> & Htasks).
  destruct (py_values tasks) as [task_list|] eqn:Hvals; [|discriminate].
  apply py_values_inv in Hvals as (o & -> & ->).
  destruct (any_m _ _) as [[|]|] eqn:Hany; try discriminate.
  cbn [py_setitem]. intros H. inversion H; subst; clear H.
  exists k, fields, o. rewrite Hid. repeat split; auto.
  apply forallb_forall. intros task Hin.
  apply (any_m_false _ _ Hany) in Hin. unfold item_ne in Hin.
  unfold task_complete. destruct (item task "status"); simpl in *; [|discriminate].
  injection Hin as Hin. now apply negb_false_iff in Hin.
Qed.

(** [close_board] succeeds on every stored board whose tasks are all
    COMPLETE, whatever its status. *)
Lemma close_board_settled k now boards fields tasks :
  k <> "" ->
  dict_get k boards = Some (JObj fields) ->
  dict_get "tasks" fields = Some (JObj tasks) ->
  forallb task_complete (values tasks) = true ->
  close_board {| br_id := JStr k |} now boards =
  (Ok (JObj [("id", JStr k)]),
   dict_set k
     (JObj (dict_set "end_time" (JStr now)
              (dict_set "status" (JStr "CLOSED") fields))) boards).
Proof.
  intros Hk Hget Htasks Hall.
  unfold close_board. run. cbn [br_id].
  rewrite truthy_str by assumption. cbn [negb py_in].
  unfold dict_has. rewrite Hget. cbn [negb py_getitem]. rewrite Hget.
  rewrite (item_obj _ _ _ Htasks). cbn [py_values].
  rewrite any_m_all_false; [reflexivity|].
  intros task Hin. rewrite forallb_forall in Hall. apply Hall in Hin.
  unfold task_complete in Hin. unfold item_ne.
  destruct (item task "status"); simpl; [|discriminate].
  now rewrite Hin.
Qed.

(** When [add_task] succeeds, the board was stored under the given id
    with status OPEN, and it has gained one task. *)
Lemma add_task_inv request now boards response boards' :
  add_task request now boards = (Ok response, boards') ->
  exists k fields tasks,
    at_board_id request = JStr k
    /\ dict_get k boards = Some (JObj fields)
    /\ dict_get "status" fields = Some (JStr "OPEN")
    /\ dict_get "tasks" fields = Some (JObj tasks)
    /\ any_m (fun task => item_eq task "title" (at_title request)) (values tasks)
       = Ok false
    /\ response = JObj [("id", JStr (str (List.length tasks + 1)))]
    /\ boards' =
       dict_set k
         (JObj (dict_set "tasks"
                  (JObj (dict_set (str (List.length tasks + 1))
                           (JObj [("title", at_title request);
                                  ("description", at_description request);
                                  ("user_id", at_user_id request);
                                  ("status", JStr "OPEN");
                                  ("creation_time", JStr now)]) tasks))
                  fields)) boards.
Proof.
  unfold add_task. run.
  destruct (_ || _); [discriminate|].
  destruct (len_gt (at_title request) 64) as [[|]|]; try discriminate.
  destruct (len_gt (at_description request) 128) as [[|]|]; try discriminate.
  destruct (py_in _ _) as [[|]|] eqn:Hin; try discriminate.
  apply lookup_inv in Hin as (k & board & Hid & Hget & ->). cbn [negb].
  destruct (item_ne board "status" (JStr "OPEN")) as [[|]|] eqn:Hopen;
    try discriminate.
  unfold item_ne in Hopen.
  destruct (item board "status") as [status|] eqn:Hstatus; [|discriminate].
  apply item_inv in Hstatus as (fields & -> & Hstatus).
  simpl in Hopen. injection Hopen as Hopen.
  apply negb_false_iff, py_eq_str in Hopen. subst status.
  destruct (item (JObj fields) "tasks") as [tasks|] eqn:Htasks; [|discriminate].
  apply item_inv in Htasks as (fields' & E & Htasks).
  injection E as <-.
  destruct (py_values tasks) as [task_list|] eqn:Hvals; [|discriminate].
  apply py_values_inv in Hvals as (o & -> & ->).
  destruct (any_m _ _) as [[|]|] eqn:Hany; try discriminate.
  cbn [py_len py_setitem with_item store_item].
  intros H. inversion H; subst; clear H.
  exists k, fields, o. rewrite Hid. repeat split; auto.
Qed.

Lemma is_closed_set_tasks fields tasks :
  is_closed (JObj (dict_set "tasks" tasks fields)) = is_closed (JObj fields).
Proof.
  unfold is_closed, item. cbn [py_getitem].
  now rewrite dict_get_set_other by discriminate.
Qed.

Lemma tasks_of_set_tasks fields tasks :
  tasks_of (JObj (dict_set "tasks" (JObj tasks) fields)) = values tasks.
Proof.
  unfold tasks_of, item. cbn [py_getitem]. now rewrite dict_get_set_same.
Qed.

(** The loop of [update_task_status] keeps CLOSED boards settled when
    it writes COMPLETE or writes to a board that is not CLOSED. *)
Lemma set_first_match_settled task_id status boards boards' :
  set_first_match task_id status boards = Ok (Some boards') ->
  forallb board_settled (values boards) = true ->
  py_eq status (JStr "COMPLETE") = true
  \/ (forall board, target_board task_id boards = Some board ->
                    is_closed board = false) ->
  forallb board_settled (values boards') = true.
Proof.
  revert boards'. induction boards as [|[k board] rest IH]; intros boards'.
  - discriminate.
  - cbn [set_first_match values map snd forallb].
    intros Hrun Hall Hsafe. apply andb_true_iff in Hall as [Hboard Hrest].
    destruct (item board "tasks") as [tasks|] eqn:Htasks; [|discriminate].
    cbn [rbind] in Hrun.
    destruct (py_in task_id tasks) as [[|]|] eqn:Hin; try discriminate;
      cbn [rbind] in Hrun.
    + destruct (py_getitem tasks task_id) as [task|] eqn:Hget; [|discriminate].
      cbn [rbind] in Hrun.
      destruct (py_setitem task "status" status) as [task'|] eqn:Hset;
        [|discriminate].
      cbn [rbind] in Hrun. injection Hrun as <-.
      apply py_setitem_inv in Hset as (t & -> & ->).
      pose proof Htasks as Hitem.
      apply item_inv in Htasks as (fields & -> & Htasks).
      cbn [with_item values map snd forallb]. rewrite Hrest, andb_true_r.
      unfold board_settled. rewrite is_closed_set_tasks.
      destruct (is_closed (JObj fields)) eqn:Hclosed; [|reflexivity].
      destruct Hsafe as [Hcomplete|Hopen].
      * apply py_eq_str in Hcomplete. subst status.
        unfold board_settled in Hboard. rewrite Hclosed in Hboard.
        unfold tasks_of in Hboard. rewrite Hitem in Hboard.
        destruct tasks as [| | |s|l|o]; try discriminate.
        -- unfold tasks_of, item. cbn [py_getitem with_item].
           now rewrite dict_get_set_same.
        -- unfold tasks_of, item. cbn [py_getitem].
           rewrite dict_get_set_same. cbn [with_item].
           destruct (as_index task_id); [|reflexivity].
           destruct (norm_index _ _); reflexivity.
        -- destruct task_id; try discriminate.
           cbn [with_item]. rewrite tasks_of_set_tasks.
           apply forallb_values_dict_set; auto.
           unfold task_complete, item. cbn [py_getitem].
           rewrite dict_get_set_same. reflexivity.
      * specialize (Hopen (JObj fields)).
        unfold target_board, holds_task in Hopen.
        cbn [values map snd find] in Hopen.
        rewrite Hitem, Hin in Hopen. rewrite Hopen in Hclosed; [discriminate|auto].
    + destruct (set_first_match task_id status rest) as [[rest'|]|] eqn:Hrec;
        try discriminate.
      cbn [rbind option_map] in Hrun. injection Hrun as <-.
      cbn [values map snd forallb]. rewrite Hboard. cbn [andb].
      apply IH; auto.
      destruct Hsafe as [Hcomplete|Hopen]; auto.
      right. intros b Hb. apply Hopen.
      unfold target_board, holds_task in *. cbn [values map snd find].
      now rewrite Htasks, Hin.
Qed.

Lemma create_board_inv request now boards response boards' :
  create_board request now boards = (Ok response, boards') ->
  response = JObj [("id", JStr (str (List.length boards + 1)))]
  /\ boards' =
     dict_set (str (List.length boards + 1))
       (JObj [("name", cb_name request);
              ("description", cb_description request);
              ("team_id", cb_team_id request);
              ("status", JStr "OPEN");
              ("creation_time", JStr now);
              ("tasks", JObj [])]) boards.
Proof.
  unfold create_board. run.
  destruct (_ || _); [discriminate|].
  destruct (len_gt (cb_name request) 64) as [[|]|]; try discriminate.
  destruct (len_gt (cb_description request) 128) as [[|]|]; try discriminate.
  destruct (any_m _ _) as [[|]|]; try discriminate.
  intros H. inversion H. auto.
Qed.

(** ** Closed boards *)

(** A board file reached from the empty one: one board, whose single
    task was completed before the board was closed. *)
Example closed_sprint_reachable : board_reachable closed_sprint.
Proof.
  pose proof reachable_empty as H0.
  pose proof (reachable_step
                (CreateBoard {| cb_name := JStr "Sprint1";
                                cb_description := JStr "d";
                                cb_team_id := JStr "1" |} "2024-05-01T09:00:00")
                _ _ _ H0 eq_refl) as H1.
  pose proof (reachable_step
                (AddTask {| at_title := JStr "T1"; at_description := JStr "d";
                            at_user_id := JStr "1"; at_board_id := JStr "1" |}
                         "2024-05-01T10:00:00")
                _ _ _ H1 eq_refl) as H2.
  pose proof (reachable_step
                (UpdateTaskStatus {| ts_id := JStr "1";
                                     ts_status := JStr "COMPLETE" |})
                _ _ _ H2 eq_refl) as H3.
  exact (reachable_step
           (CloseBoard {| br_id := JStr "1" |} "2024-05-01T12:00:00")
           _ _ _ H3 eq_refl).
Qed.

(** C2, as stated, fails: on a reachable file whose only board is CLOSED
    with its task COMPLETE, [update_task_status] succeeds in setting the
    task to IN_PROGRESS, and the board stays CLOSED. *)
Lemma closed_board_task_reopened :
  board_reachable closed_sprint
  /\ closed_complete closed_sprint = true
  /\ update_task_status {| ts_id := JStr "1"; ts_status := JStr "IN_PROGRESS" |}
       closed_sprint
     = (Ok (JObj [("id", JStr "1")]), reopened_sprint)
  /\ closed_complete reopened_sprint = false.
Proof.
  split; [exact closed_sprint_reachable|].
  repeat split; reflexivity.
Qed.

(** C2, amended: every CLOSED board having only COMPLETE tasks is
    preserved by each successful [create_board], [close_board] and
    [add_task], and by each successful [update_task_status] that writes
    COMPLETE or whose task lies on a board that is not CLOSED. *)
Theorem closed_boards_stay_complete op boards response boards' :
  closed_complete boards = true ->
  run_board_op op boards = (Ok response, boards') ->
  reopens_closed_task op boards = false ->
  closed_complete boards' = true.
Proof.
  unfold closed_complete. intros Hinv Hrun Hsafe.
  destruct op as [request now|request now|request now|request]; cbn in Hrun.
  - apply create_board_inv in Hrun as [_ ->].
    apply forallb_values_dict_set; auto.
  - apply close_board_inv in Hrun
      as (k & fields & tasks & _ & _ & Htasks & Hall & _ & ->).
    apply forallb_values_dict_set; auto.
    unfold board_settled.
    destruct (is_closed _); [|reflexivity].
    unfold tasks_of, item. cbn [py_getitem].
    rewrite !dict_get_set_other by discriminate. now rewrite Htasks.
  - apply add_task_inv in Hrun
      as (k & fields & tasks & _ & _ & Hopen & _ & _ & _ & ->).
    apply forallb_values_dict_set; auto.
    unfold board_settled. rewrite is_closed_set_tasks.
    unfold is_closed, item. cbn [py_getitem]. now rewrite Hopen.
  - unfold update_task_status in Hrun. run.
    destruct (_ || _); [discriminate|].
    destruct (negb (existsb _ _)); [discriminate|].
    destruct (set_first_match _ _ _) as [[updated|]|] eqn:Hloop;
      try discriminate.
    injection Hrun as _ <-.
    apply (set_first_match_settled _ _ _ _ Hloop Hinv).
    cbn in Hsafe. apply andb_false_iff in Hsafe as [Hc|Ht].
    + left. now apply negb_false_iff in Hc.
    + right. intros board Hb. now rewrite Hb in Ht.
Qed.

Lemma closed_boards_stay_complete_witness :
  closed_complete closed_sprint = true
  /\ reopens_closed_task
       (CloseBoard {| br_id := JStr "1" |} "2024-05-02T08:00:00") closed_sprint
     = false
  /\ closed_complete
       (snd (close_board {| br_id := JStr "1" |} "2024-05-02T08:00:00"
               closed_sprint)) = true.
Proof.
  split; [reflexivity|]. split; [reflexivity|].
  apply (closed_boards_stay_complete
           (CloseBoard {| br_id := JStr "1" |} "2024-05-02T08:00:00")
           closed_sprint (JObj [("id", JStr "1")])); reflexivity.
Defined.

(** ** Closing a board *)

Lemma status_after_close now fields :
  dict_get "status"
    (dict_set "end_time" (JStr now) (dict_set "status" (JStr "CLOSED") fields))
  = Some (JStr "CLOSED").
Proof.
  rewrite dict_get_set_other by discriminate. apply dict_get_set_same.
Qed.

(** C6: [close_board] on a stored board without tasks succeeds, sets
    its status to CLOSED and records [now] as end_time; on a stored board
    with a task that is not COMPLETE it raises and the file, hence the
    board and its status, is unchanged. *)
Theorem close_board_empty_or_incomplete k now boards fields :
  k <> "" ->
  dict_get k boards = Some (JObj fields) ->
  (dict_get "tasks" fields = Some (JObj []) ->
   exists fields',
     close_board {| br_id := JStr k |} now boards
     = (Ok (JObj [("id", JStr k)]), dict_set k (JObj fields') boards)
     /\ fields' = dict_set "end_time" (JStr now)
                    (dict_set "status" (JStr "CLOSED") fields)
     /\ dict_get "status" fields' = Some (JStr "CLOSED")
     /\ dict_get "end_time" fields' = Some (JStr now))
  /\ (forall tasks task,
         dict_get "tasks" fields = Some (JObj tasks) ->
         In task (values tasks) ->
         task_complete task = false ->
         exists e,
           close_board {| br_id := JStr k |} now boards = (Err e, boards)).
Proof.
  intros Hk Hget. split.
  - intros Htasks. eexists. split; [|split; [reflexivity|split]].
    + now apply (close_board_settled k now boards fields []).
    + apply status_after_close.
    + apply dict_get_set_same.
  - intros tasks task Htasks Hin Htask.
    unfold close_board. run. cbn [br_id].
    rewrite truthy_str by assumption. cbn [negb py_in].
    unfold dict_has. rewrite Hget. cbn [negb py_getitem]. rewrite Hget.
    rewrite (item_obj _ _ _ Htasks). cbn [py_values].
    destruct (any_m _ _) as [[|]|] eqn:Hany; try failed.
    exfalso. apply (any_m_false _ _ Hany) in Hin.
    unfold item_ne in Hin. unfold task_complete in Htask.
    destruct (item task "status"); [|discriminate].
    cbn in Hin. rewrite Htask in Hin. discriminate.
Qed.

Lemma close_board_empty_or_incomplete_witness :
  (exists fields',
      close_board {| br_id := JStr "1" |} "2024-05-01T12:00:00"
        [("1", JObj [("status", JStr "OPEN"); ("tasks", JObj [])])]
      = (Ok (JObj [("id", JStr "1")]),
         dict_set "1" (JObj fields')
           [("1", JObj [("status", JStr "OPEN"); ("tasks", JObj [])])])
      /\ fields' = dict_set "end_time" (JStr "2024-05-01T12:00:00")
                     (dict_set "status" (JStr "CLOSED")
                        [("status", JStr "OPEN"); ("tasks", JObj [])])
      /\ dict_get "status" fields' = Some (JStr "CLOSED")
      /\ dict_get "end_time" fields' = Some (JStr "2024-05-01T12:00:00"))
  /\ exists e,
      close_board {| br_id := JStr "1" |} "2024-05-01T12:00:00" reopened_sprint
      = (Err e, reopened_sprint).
Proof.
  split.
  - refine (proj1 (close_board_empty_or_incomplete "1" "2024-05-01T12:00:00"
                     [("1", JObj [("status", JStr "OPEN"); ("tasks", JObj [])])]
                     _ _ eq_refl) eq_refl).
    discriminate.
  - eapply (proj2 (close_board_empty_or_incomplete "1" "2024-05-01T12:00:00"
                     reopened_sprint _ ltac:(discriminate) eq_refl)).
    + reflexivity.
    + left. reflexivity.
    + reflexivity.
Defined.

(** C10: [close_board] does not look at the board's status.  On a stored
    board whose tasks are all COMPLETE it succeeds whatever the status,
    and leaves the board CLOSED with [now] as end_time; called again on
    the board it has just closed, it succeeds again and replaces
    end_time by the time of the second call. *)
Theorem close_board_again k now later boards fields tasks :
  k <> "" ->
  dict_get k boards = Some (JObj fields) ->
  dict_get "tasks" fields = Some (JObj tasks) ->
  forallb task_complete (values tasks) = true ->
  exists closed closed_again once twice,
    close_board {| br_id := JStr k |} now boards
    = (Ok (JObj [("id", JStr k)]), closed)
    /\ dict_get k closed = Some (JObj once)
    /\ dict_get "status" once = Some (JStr "CLOSED")
    /\ dict_get "end_time" once = Some (JStr now)
    /\ close_board {| br_id := JStr k |} later closed
       = (Ok (JObj [("id", JStr k)]), closed_again)
    /\ dict_get k closed_again = Some (JObj twice)
    /\ dict_get "status" twice = Some (JStr "CLOSED")
    /\ dict_get "end_time" twice = Some (JStr later).
Proof.
  intros Hk Hget Htasks Hall.
  set (once := dict_set "end_time" (JStr now)
                 (dict_set "status" (JStr "CLOSED") fields)).
  set (twice := dict_set "end_time" (JStr later)
                  (dict_set "status" (JStr "CLOSED") once)).
  exists (dict_set k (JObj once) boards),
         (dict_set k (JObj twice) (dict_set k (JObj once) boards)),
         once, twice.
  assert (dict_get "tasks" once = Some (JObj tasks)) as Htasks'.
  { unfold once. now rewrite !dict_get_set_other by discriminate. }
  split; [now apply (close_board_settled k now boards fields tasks)|].
  split; [apply dict_get_set_same|].
  split; [apply status_after_close|].
  split; [apply dict_get_set_same|].
  split.
  - apply (close_board_settled k later _ once tasks); auto.
    apply dict_get_set_same.
  - split; [apply dict_get_set_same|].
    split; [apply status_after_close|apply dict_get_set_same].
Qed.

Lemma close_board_again_witness :
  exists closed closed_again once twice,
    close_board {| br_id := JStr "1" |} "2024-05-02T08:00:00" closed_sprint
    = (Ok (JObj [("id", JStr "1")]), closed)
    /\ dict_get "1" closed = Some (JObj once)
    /\ dict_get "status" once = Some (JStr "CLOSED")
    /\ dict_get "end_time" once = Some (JStr "2024-05-02T08:00:00")
    /\ close_board {| br_id := JStr "1" |} "2024-05-03T08:00:00" closed
       = (Ok (JObj [("id", JStr "1")]), closed_again)
    /\ dict_get "1" closed_again = Some (JObj twice)
    /\ dict_get "status" twice = Some (JStr "CLOSED")
    /\ dict_get "end_time" twice = Some (JStr "2024-05-03T08:00:00").
Proof.
  refine (close_board_again "1" "2024-05-02T08:00:00" "2024-05-03T08:00:00"
            closed_sprint _ _ _ eq_refl eq_refl eq_refl).
  discriminate.
Defined.

(** ** Adding a task *)



(** ** Updating the status of a task *)

Lemma py_eq_str_l s v : py_eq (JStr s) v = true -> v = JStr s.
Proof.
  destruct v; simpl; try discriminate.
  intros H. apply String.eqb_eq in H. now subst.
Qed.







(** ** Teams *)

Import TeamManager.

(** The call [UserManager.describe_user(json.dumps(...))] made by
    [list_team_users] raises whatever it is given. *)
Lemma team_user_raises user_id : team_user user_id = Err TypeError.
Proof. reflexivity. Qed.

(** C3, evaluated on the code: for a stored team with at least one
    member, [list_team_users] raises TypeError at the first member and
    returns no record at all, because [describe_user] is called on the
    class with one argument for its two parameters; for a team without
    members it returns the empty list. *)
Theorem list_team_users_raises_with_members k teams fields :
  k <> "" ->
  dict_get k teams = Some (JObj fields) ->
  (forall first others,
      dict_get "users" fields = Some (JArr (first :: others)) ->
      list_team_users {| tr_id := JStr k |} teams = (Err TypeError, teams))
  /\ (dict_get "users" fields = Some (JArr []) ->
      list_team_users {| tr_id := JStr k |} teams = (Ok (JArr []), teams)).
Proof.
  intros Hk Hget.
  assert (forall members,
             dict_get "users" fields = Some (JArr members) ->
             list_team_users {| tr_id := JStr k |} teams =
             match map_m team_user members with
             | Ok l => (Ok (JArr l), teams)
             | Err e => (Err e, teams)
             end) as Hrun.
  { intros members Husers. unfold list_team_users. run. cbn [tr_id].
    rewrite truthy_str by assumption. cbn [negb py_in].
    unfold dict_has. rewrite Hget. cbn [negb py_getitem]. rewrite Hget.
    rewrite (item_obj _ _ _ Husers). cbn [py_iter].
    destruct (map_m team_user members); reflexivity. }
  split.
  - intros first others Husers. rewrite (Hrun _ Husers). reflexivity.
  - intros Husers. rewrite (Hrun _ Husers). reflexivity.
Qed.

Lemma list_team_users_raises_with_members_witness :
  list_team_users {| tr_id := JStr "1" |} team_with_member
  = (Err TypeError, team_with_member).
Proof.
  refine (proj1 (list_team_users_raises_with_members "1" team_with_member
                   _ _ eq_refl) (JStr "1") [] eq_refl).
  discriminate.
Defined.

(** ** Members of a team *)

Lemma add_users_to_team_frame order request teams e teams' :
  add_users_to_team order request teams = (Err e, teams') -> teams' = teams.
Proof. unfold add_users_to_team, list_of_set. frame. Qed.

Lemma filter_strings x m :
  filter (fun y => negb (py_eq (JStr x) y)) (map JStr m)
  = map JStr (filter (fun y => negb (String.eqb x y)) m).
Proof.
  induction m as [|y m IH]; [reflexivity|].
  cbn [map filter]. change (py_eq (JStr x) (JStr y)) with (String.eqb x y).
  destruct (String.eqb x y); cbn [negb map]; now rewrite IH.
Qed.

(** A set built from strings holds each of them once. *)
Lemma py_set_strings l :
  exists m, py_set (map JStr l) = map JStr m
            /\ NoDup m /\ forall u, In u m <-> In u l.
Proof.
  induction l as [|x l (m & Hm & Hnodup & Hin)].
  - exists []. repeat split; auto; constructor.
  - exists (x :: filter (fun y => negb (String.eqb x y)) m).
    cbn [map py_set]. rewrite Hm, filter_strings. split; [reflexivity|]. split.
    + constructor.
      * rewrite filter_In. intros [_ H]. now rewrite String.eqb_refl in H.
      * now apply NoDup_filter.
    + intros u. cbn [In]. rewrite filter_In, Hin.
      destruct (String.eqb x u) eqn:E.
      * apply String.eqb_eq in E. subst. cbn. intuition discriminate.
      * cbn. intuition.
Qed.

Lemma hashable_strings l : forallb hashable (map JStr l) = true.
Proof. induction l; auto. Qed.

(** Two lists with the same elements have as many distinct elements. *)
Lemma nodup_length_same_elements (l l' : list string) :
  (forall u, In u l <-> In u l') ->
  List.length (nodup string_dec l) = List.length (nodup string_dec l').
Proof.
  intros H. apply Permutation_length, NoDup_Permutation.
  - apply NoDup_nodup.
  - apply NoDup_nodup.
  - intros u. now rewrite !nodup_In.
Qed.

(** [add_users_to_team] with at most 50 strings on a team whose members
    are strings: the members become the distinct elements of both
    lists. *)
Lemma add_users_to_team_strings order k teams fields old new :
  (forall l, Permutation (order l) l) ->
  k <> "" ->
  dict_get k teams = Some (JObj fields) ->
  dict_get "users" fields = Some (JArr (map JStr old)) ->
  List.length new <= 50 ->
  exists members,
    add_users_to_team order
      {| tu_id := JStr k; tu_users := Some (JArr (map JStr new)) |} teams
    = (Ok (JObj [("id", JStr k)]),
       dict_set k (JObj (dict_set "users" (JArr (map JStr members)) fields)) teams)
    /\ NoDup members
    /\ (forall u, In u members <-> In u old \/ In u new)
    /\ List.length members = List.length (nodup string_dec (old ++ new)).
Proof.
  intros Horder Hk Hget Husers Hlen.
  destruct (py_set_strings (old ++ new)) as (m & Hm & Hnodup & Hin).
  destruct (Permutation_map_inv JStr m (Horder (map JStr m)))
    as (members & Hmembers & Hperm).
  exists members.
  assert (forall u, In u members <-> In u old \/ In u new) as Hunion.
  { intros u. rewrite <- in_app_iff, <- Hin. split; apply Permutation_in; auto.
    now apply Permutation_sym. }
  split; [|split; [|split]]; auto.
  - unfold add_users_to_team. run. cbn [tu_id tu_users].
    rewrite truthy_str by assumption. cbn [negb].
    unfold len_gt. cbn [py_len rbind]. rewrite length_map.
    destruct (Nat.ltb_spec 50 (List.length new)) as [Hgt|_]; [lia|].
    cbn [py_in]. unfold dict_has. rewrite Hget. cbn [negb py_getitem].
    rewrite Hget. rewrite (item_obj _ _ _ Husers). cbn [py_add].
    unfold list_of_set. cbn [py_iter rbind].
    rewrite <- map_app, hashable_strings, Hm, Hmembers. reflexivity.
  - apply (Permutation_NoDup Hperm Hnodup).
  - apply Permutation_length, NoDup_Permutation.
    + apply (Permutation_NoDup Hperm Hnodup).
    + apply NoDup_nodup.
    + intros u. now rewrite nodup_In, in_app_iff.
Qed.

(** C9: [add_users_to_team] with more than 50 entries raises and leaves
    the file unchanged.  With at most 50, the team's members become the
    union of its members and the given list, each id once, so that
    their number is the number of distinct ids of both lists; adding a
    second list, overlapping or not, again gives each id once. *)
Theorem add_users_to_team_union order k teams fields old :
  (forall l, Permutation (order l) l) ->
  k <> "" ->
  dict_get k teams = Some (JObj fields) ->
  dict_get "users" fields = Some (JArr (map JStr old)) ->
  (forall users,
      50 < List.length users ->
      exists e,
        add_users_to_team order
          {| tu_id := JStr k; tu_users := Some (JArr users) |} teams
        = (Err e, teams))
  /\ (forall new,
         List.length new <= 50 ->
         exists members,
           add_users_to_team order
             {| tu_id := JStr k; tu_users := Some (JArr (map JStr new)) |} teams
           = (Ok (JObj [("id", JStr k)]),
              dict_set k
                (JObj (dict_set "users" (JArr (map JStr members)) fields)) teams)
           /\ NoDup members
           /\ (forall u, In u members <-> In u old \/ In u new)
           /\ List.length members = List.length (nodup string_dec (old ++ new)))
  /\ (forall first second,
         List.length first <= 50 ->
         List.length second <= 50 ->
         exists teams1 teams2 fields2 members,
           add_users_to_team order
             {| tu_id := JStr k; tu_users := Some (JArr (map JStr first)) |} teams
           = (Ok (JObj [("id", JStr k)]), teams1)
           /\ add_users_to_team order
                {| tu_id := JStr k; tu_users := Some (JArr (map JStr second)) |}
                teams1
              = (Ok (JObj [("id", JStr k)]), teams2)
           /\ dict_get k teams2 = Some (JObj fields2)
           /\ dict_get "users" fields2 = Some (JArr (map JStr members))
           /\ NoDup members
           /\ (forall u, In u members <-> In u old \/ In u first \/ In u second)
           /\ List.length members
              = List.length (nodup string_dec (old ++ first ++ second))).
Proof.
  intros Horder Hk Hget Husers. split; [|split].
  - intros users Hlen. unfold add_users_to_team. run. cbn [tu_id tu_users].
    rewrite truthy_str by assumption. cbn [negb].
    unfold len_gt. cbn [py_len rbind].
    destruct (Nat.ltb_spec 50 (List.length users)) as [_|Hle]; [failed|lia].
  - intros new Hlen.
    now apply add_users_to_team_strings.
  - intros first second Hfirst Hsecond.
    destruct (add_users_to_team_strings order k teams fields old first)
      as (m1 & Hrun1 & _ & Hin1 & _); auto.
    set (fields1 := dict_set "users" (JArr (map JStr m1)) fields) in *.
    set (teams1 := dict_set k (JObj fields1) teams) in *.
    destruct (add_users_to_team_strings order k teams1 fields1 m1 second)
      as (m2 & Hrun2 & Hnodup2 & Hin2 & Hlen2); auto.
    { apply dict_get_set_same. }
    { apply dict_get_set_same. }
    exists teams1, (dict_set k
                      (JObj (dict_set "users" (JArr (map JStr m2)) fields1))
                      teams1),
           (dict_set "users" (JArr (map JStr m2)) fields1), m2.
    split; [exact Hrun1|]. split; [exact Hrun2|].
    split; [apply dict_get_set_same|]. split; [apply dict_get_set_same|].
    split; [exact Hnodup2|]. split.
    + intros u. rewrite Hin2, Hin1. tauto.
    + rewrite Hlen2. apply nodup_length_same_elements.
      intros u. rewrite !in_app_iff, Hin1. tauto.
Qed.

Lemma add_users_to_team_union_witness :
  (exists e,
      add_users_to_team (fun l => l)
        {| tu_id := JStr "1"; tu_users := Some (JArr (repeat (JStr "9") 51)) |}
        team_with_member
      = (Err e, team_with_member))
  /\ (exists members,
         add_users_to_team (fun l => l)
           {| tu_id := JStr "1";
              tu_users := Some (JArr (map JStr ["1"; "2"; "2"])) |}
           team_with_member
         = (Ok (JObj [("id", JStr "1")]),
            dict_set "1"
              (JObj (dict_set "users" (JArr (map JStr members))
                       [("name", JStr "core");
                        ("description", JStr "d");
                        ("admin", JStr "1");
                        ("creation_time", JStr "2024-05-01T09:00:00");
                        ("users", JArr [JStr "1"])])) team_with_member)
         /\ NoDup members
         /\ (forall u, In u members <-> In u ["1"] \/ In u ["1"; "2"; "2"])
         /\ List.length members = 2)
  /\ (exists teams1 teams2 fields2 members,
         add_users_to_team (fun l => l)
           {| tu_id := JStr "1"; tu_users := Some (JArr (map JStr ["1"; "2"])) |}
           team_with_member
         = (Ok (JObj [("id", JStr "1")]), teams1)
         /\ add_users_to_team (fun l => l)
              {| tu_id := JStr "1";
                 tu_users := Some (JArr (map JStr ["2"; "3"])) |} teams1
            = (Ok (JObj [("id", JStr "1")]), teams2)
         /\ dict_get "1" teams2 = Some (JObj fields2)
         /\ dict_get "users" fields2 = Some (JArr (map JStr members))
         /\ NoDup members
         /\ (forall u,
                In u members <-> In u ["1"] \/ In u ["1"; "2"] \/ In u ["2"; "3"])
         /\ List.length members = 3).
Proof.
  pose proof (add_users_to_team_union (fun l => l) "1" team_with_member
                _ ["1"] (fun l => Permutation_refl l)
                ltac:(discriminate) eq_refl eq_refl) as (Hmany & Hunion & Htwice).
  split; [|split].
  - apply Hmany. cbn. lia.
  - apply (Hunion ["1"; "2"; "2"]). cbn. lia.
  - apply (Htwice ["1"; "2"] ["2"; "3"]); cbn; lia.
Defined.

(** The team store reads back what it has created: [describe_team] on
    the id returned by [create_team] gives the name, the description
    and the admin of the request. *)
Lemma created_team_can_be_read request now teams response teams' :
  create_team request now teams = (Ok response, teams') ->
  exists team_id,
    response = JObj [("id", JStr team_id)]
    /\ describe_team {| tr_id := JStr team_id |} teams'
       = (Ok (JObj [("name", ct_name request);
                    ("description", ct_description request);
                    ("creation_time", JStr now);
                    ("admin", ct_admin request)]), teams').
Proof.
  unfold create_team. run.
  destruct (_ || _); [discriminate|].
  destruct (len_gt (ct_name request) 64) as [[|]|]; try discriminate.
  destruct (len_gt (ct_description request) 128) as [[|]|]; try discriminate.
  destruct (any_m _ _) as [[|]|]; try discriminate.
  intros H. inversion H; subst; clear H.
  eexists. split; [reflexivity|].
  unfold describe_team. run. cbn [tr_id].
  rewrite truthy_str by apply str_nonempty.
  cbn [negb py_in]. rewrite dict_has_set_same.
  cbn [negb py_getitem]. now rewrite dict_get_set_same.
Qed.

(** ** Creating records *)

Lemma create_user_frame request now users e users' :
  UserManager.create_user request now users = (Err e, users') -> users' = users.
Proof. unfold UserManager.create_user. frame. Qed.

Lemma create_team_frame request now teams e teams' :
  create_team request now teams = (Err e, teams') -> teams' = teams.
Proof. unfold create_team. frame. Qed.

(** C5: [create_user] and [create_team] with the name of a stored
    record, and [create_board] with the name and team_id of a stored
    board, raise and leave the file as it was: no record is added and
    none is changed. *)
Theorem duplicate_name_refused :
  (forall request now users user,
      In user (values users) ->
      item_eq user "name" (UserManager.cu_name request) = Ok true ->
      exists e, UserManager.create_user request now users = (Err e, users))
  /\ (forall request now teams team,
         In team (values teams) ->
         item_eq team "name" (ct_name request) = Ok true ->
         exists e, create_team request now teams = (Err e, teams))
  /\ (forall request now boards board,
         In board (values boards) ->
         item_eq board "name" (cb_name request) = Ok true ->
         item_eq board "team_id" (cb_team_id request) = Ok true ->
         exists e, create_board request now boards = (Err e, boards)).
Proof.
  split; [|split].
  - intros request now users user Hin Hname.
    destruct (UserManager.create_user request now users)
      as [[response|e] users'] eqn:Hrun.
    + exfalso. revert Hrun. unfold UserManager.create_user. run.
      destruct (_ || _); [discriminate|].
      destruct (or_else _ _) as [[|]|]; try discriminate.
      destruct (any_m _ _) as [[|]|] eqn:Hany; try discriminate.
      exfalso. exact (any_m_hit _ _ _ Hin Hname Hany).
    + apply create_user_frame in Hrun as ->. eauto.
  - intros request now teams team Hin Hname.
    destruct (create_team request now teams) as [[response|e] teams'] eqn:Hrun.
    + exfalso. revert Hrun. unfold create_team. run.
      destruct (_ || _); [discriminate|].
      destruct (len_gt (ct_name request) 64) as [[|]|]; try discriminate.
      destruct (len_gt (ct_description request) 128) as [[|]|];
        try discriminate.
      destruct (any_m _ _) as [[|]|] eqn:Hany; try discriminate.
      exfalso. exact (any_m_hit _ _ _ Hin Hname Hany).
    + apply create_team_frame in Hrun as ->. eauto.
  - intros request now boards board Hin Hname Hteam.
    destruct (create_board request now boards) as [[response|e] boards'] eqn:Hrun.
    + exfalso. revert Hrun. unfold create_board. run.
      destruct (_ || _); [discriminate|].
      destruct (len_gt (cb_name request) 64) as [[|]|]; try discriminate.
      destruct (len_gt (cb_description request) 128) as [[|]|];
        try discriminate.
      destruct (any_m _ _) as [[|]|] eqn:Hany; try discriminate.
      exfalso.
      refine (any_m_hit _ _ board Hin _ Hany).
      unfold and_then. now rewrite Hname.
    + apply create_board_frame in Hrun as ->. eauto.
Qed.

Lemma duplicate_name_refused_witness :
  (exists e,
      UserManager.create_user
        {| UserManager.cu_name := JStr "alice";
           UserManager.cu_display_name := JStr "Alice B" |}
        "2024-05-02T08:00:00" two_users = (Err e, two_users))
  /\ (exists e,
         create_team
           {| ct_name := JStr "core"; ct_description := JStr "again";
              ct_admin := JStr "2" |}
           "2024-05-02T08:00:00" two_teams = (Err e, two_teams))
  /\ (exists e,
         create_board
           {| cb_name := JStr "Sprint1"; cb_description := JStr "again";
              cb_team_id := JStr "1" |}
           "2024-05-02T08:00:00" open_sprint = (Err e, open_sprint)).
Proof.
  split; [|split].
  - eapply (proj1 duplicate_name_refused).
    + left. reflexivity.
    + reflexivity.
  - eapply (proj1 (proj2 duplicate_name_refused)).
    + left. reflexivity.
    + reflexivity.
  - eapply (proj2 (proj2 duplicate_name_refused)).
    + left. reflexivity.
    + reflexivity.
    + reflexivity.
Defined.

(** ** Identifiers *)

Lemma keys_dict_set_present k v d :
  dict_has k d = true -> keys (dict_set k v d) = keys d.
Proof.
  unfold dict_has, keys. induction d as [|[k' v'] d IH]; cbn; [discriminate|].
  destruct (String.eqb k k') eqn:E; cbn; [reflexivity|].
  intros H. now rewrite IH.
Qed.

Lemma dict_set_absent k v d :
  dict_get k d = None -> dict_set k v d = d ++ [(k, v)].
Proof.
  induction d as [|[k' v'] d IH]; cbn; [reflexivity|].
  destruct (String.eqb k k'); [discriminate|].
  intros H. now rewrite IH.
Qed.

Lemma dict_get_none_keys k d : ~ In k (keys d) -> dict_get k d = None.
Proof.
  induction d as [|[k' v'] d IH]; cbn; [reflexivity|].
  intros H. destruct (String.eqb_spec k k') as [->|_]; [tauto|].
  apply IH. tauto.
Qed.

Lemma sequential_fresh d :
  sequential d -> dict_get (str (List.length d + 1)) d = None.
Proof.
  unfold sequential. intros H. apply dict_get_none_keys. rewrite H.
  rewrite in_map_iff. intros (n & Hn & Hin).
  apply str_inj in Hn. apply in_seq in Hin. lia.
Qed.

Lemma sequential_append v d :
  sequential d -> sequential (dict_set (str (List.length d + 1)) v d).
Proof.
  intros H. rewrite dict_set_absent by now apply sequential_fresh.
  unfold sequential, keys in *. rewrite map_app, length_app, H. cbn.
  rewrite Nat.add_1_r, seq_S, map_app. reflexivity.
Qed.

Lemma length_dict_set_present k v d :
  dict_has k d = true -> List.length (dict_set k v d) = List.length d.
Proof.
  unfold dict_has. induction d as [|[k' v'] d IH]; cbn; [discriminate|].
  destruct (String.eqb k k') eqn:E; cbn; [reflexivity|].
  intros H. now rewrite IH.
Qed.

Lemma sequential_overwrite k v d :
  dict_has k d = true -> sequential d -> sequential (dict_set k v d).
Proof.
  unfold sequential. intros Hk H.
  now rewrite keys_dict_set_present, length_dict_set_present.
Qed.

Lemma sequential_same_keys d d' :
  keys d' = keys d -> sequential d -> sequential d'.
Proof.
  unfold sequential. intros Hk H.
  rewrite Hk, <- (length_map fst d'). fold (keys d').
  rewrite Hk. unfold keys at 2. now rewrite length_map.
Qed.

Lemma store_item_sequential d i v :
  py_in i (JObj d) = Ok true -> sequential d -> sequential (store_item d i v).
Proof.
  intros Hin. apply lookup_inv in Hin as (k & w & -> & Hget & _).
  apply sequential_overwrite. unfold dict_has. now rewrite Hget.
Qed.

(** Writing through an operation keeps the keys "1", "2", ... *)
Ltac present :=
  match goal with
  | H : py_in ?i ?d = Ok ?a, H' : negb ?a = false |- py_in ?i ?d = Ok true =>
      destruct a; [exact H | discriminate H']
  end.

Ltac keeps_sequential :=
  run; crunch; intros H; inversion H; subst; clear H; intros Hseq;
  first [ now apply sequential_append
        | apply store_item_sequential; [present | assumption] ].

Lemma user_reachable_sequential users :
  user_reachable users -> sequential users.
Proof.
  induction 1 as [|op users response users' _ IH Hrun]; [reflexivity|].
  revert Hrun IH. destruct op as [request now|request]; cbn.
  - unfold UserManager.create_user. keeps_sequential.
  - unfold UserManager.update_user. keeps_sequential.
Qed.

Lemma team_reachable_sequential teams :
  team_reachable teams -> sequential teams.
Proof.
  induction 1 as [|op teams response teams' _ IH Hrun]; [reflexivity|].
  revert Hrun IH. destruct op as [request now|request|order request|request]; cbn.
  - unfold create_team. keeps_sequential.
  - unfold update_team. keeps_sequential.
  - unfold add_users_to_team. keeps_sequential.
  - unfold remove_users_from_team. keeps_sequential.
Qed.

Lemma set_first_match_keys task_id status boards boards' :
  set_first_match task_id status boards = Ok (Some boards') ->
  keys boards' = keys boards.
Proof.
  revert boards'. induction boards as [|[k board] rest IH]; intros boards'.
  - discriminate.
  - cbn [set_first_match].
    destruct (item board "tasks") as [tasks|]; [|discriminate]. cbn [rbind].
    destruct (py_in task_id tasks) as [[|]|]; try discriminate; cbn [rbind].
    + destruct (py_getitem tasks task_id); [|discriminate]. cbn [rbind].
      destruct (py_setitem _ _ _); [|discriminate]. cbn [rbind].
      intros H. now inversion H.
    + destruct (set_first_match task_id status rest) as [[rest'|]|];
        try discriminate.
      cbn [rbind option_map]. intros H. inversion H. cbn.
      f_equal. now apply IH.
Qed.

Lemma board_reachable_sequential boards :
  board_reachable boards -> sequential boards.
Proof.
  induction 1 as [|op boards response boards' _ IH Hrun]; [reflexivity|].
  revert Hrun IH.
  destruct op as [request now|request now|request now|request]; cbn.
  - unfold create_board. keeps_sequential.
  - unfold close_board. keeps_sequential.
  - unfold add_task. keeps_sequential.
  - unfold update_task_status. run.
    destruct (_ || _); [discriminate|].
    destruct (negb _); [discriminate|].
    destruct (set_first_match _ _ _) as [[updated|]|] eqn:Hloop;
      try discriminate.
    intros H. inversion H. subst.
    apply sequential_same_keys. now apply set_first_match_keys in Hloop.
Qed.

(** The identifier that a create operation returns on a reachable file
    is not yet a key of the collection, and the file gains one record
    under it. *)
Lemma created_ids_are_fresh :
  (forall request now users response users',
      user_reachable users ->
      UserManager.create_user request now users = (Ok response, users') ->
      exists user_id user,
        response = JObj [("status", JStr "success"); ("user_id", JStr user_id)]
        /\ dict_get user_id users = None
        /\ users' = users ++ [(user_id, user)])
  /\ (forall request now teams response teams',
         team_reachable teams ->
         create_team request now teams = (Ok response, teams') ->
         exists team_id team,
           response = JObj [("id", JStr team_id)]
           /\ dict_get team_id teams = None
           /\ teams' = teams ++ [(team_id, team)])
  /\ (forall request now boards response boards',
         board_reachable boards ->
         create_board request now boards = (Ok response, boards') ->
         exists board_id board,
           response = JObj [("id", JStr board_id)]
           /\ dict_get board_id boards = None
           /\ boards' = boards ++ [(board_id, board)]).
Proof.
  split; [|split].
  - intros request now users response users' Hreach.
    apply user_reachable_sequential, sequential_fresh in Hreach.
    unfold UserManager.create_user. run. crunch; intros H; inversion H.
    do 2 eexists. split; [reflexivity|]. split; [exact Hreach|].
    now apply dict_set_absent.
  - intros request now teams response teams' Hreach.
    apply team_reachable_sequential, sequential_fresh in Hreach.
    unfold create_team. run. crunch; intros H; inversion H.
    do 2 eexists. split; [reflexivity|]. split; [exact Hreach|].
    now apply dict_set_absent.
  - intros request now boards response boards' Hreach.
    apply board_reachable_sequential, sequential_fresh in Hreach.
    unfold create_board. run. crunch; intros H; inversion H.
    do 2 eexists. split; [reflexivity|]. split; [exact Hreach|].
    now apply dict_set_absent.
Qed.

(** ** Names of users and of teams *)



(** A dictionary assigned to a key that is present replaces the first
    record stored under it. *)
Lemma dict_set_split k v old d :
  dict_get k d = Some old ->
  exists before after,
    d = before ++ (k, old) :: after
    /\ dict_set k v d = before ++ (k, v) :: after.
Proof.
  induction d as [|[k1 v1] d IH]; [discriminate|].
  cbn [dict_get dict_set]. destruct (String.eqb_spec k k1) as [->|_].
  - intros E. injection E as ->. now exists [], d.
  - intros E. destruct (IH E) as (before & after & -> & ->).
    now exists ((k1, v1) :: before), after.
Qed.











(** C4, evaluated on the code: starting from the empty file, two
    [create_user] calls store alice and bob under distinct names; then
    [update_user] renames user 2 to alice without any check, and the
    file holds two users named alice. *)
Theorem update_user_duplicates_name :
  UserManager.create_user
    {| UserManager.cu_name := JStr "alice";
       UserManager.cu_display_name := JStr "Alice A" |}
    "2024-05-01T09:00:00" []
  = (Ok (JObj [("status", JStr "success"); ("user_id", JStr "1")]),
     [("1", JObj [("name", JStr "alice");
                  ("display_name", JStr "Alice A");
                  ("creation_time", JStr "2024-05-01T09:00:00")])])
  /\ UserManager.create_user
       {| UserManager.cu_name := JStr "bob";
          UserManager.cu_display_name := JStr "Bob B" |}
       "2024-05-01T09:05:00"
       [("1", JObj [("name", JStr "alice");
                    ("display_name", JStr "Alice A");
                    ("creation_time", JStr "2024-05-01T09:00:00")])]
     = (Ok (JObj [("status", JStr "success"); ("user_id", JStr "2")]), two_users)
  /\ names_unique (values two_users) = true
  /\ UserManager.update_user
       {| UserManager.uu_id := JStr "2";
          UserManager.uu_user := Some [("name", JStr "alice")] |} two_users
     = (Ok (JObj [("status", JStr "success");
                  ("user_data", JObj [("id", JStr "2")])]),
        [("1", JObj [("name", JStr "alice");
                     ("display_name", JStr "Alice A");
                     ("creation_time", JStr "2024-05-01T09:00:00")]);
         ("2", JObj [("name", JStr "alice");
                     ("display_name", JStr "Bob B");
                     ("creation_time", JStr "2024-05-01T09:05:00")])])
  /\ names_unique
       (values (snd (UserManager.update_user
                       {| UserManager.uu_id := JStr "2";
                          UserManager.uu_user := Some [("name", JStr "alice")] |}
                       two_users))) = false.
Proof. repeat split; reflexivity. Qed.

(** The sibling [update_team] makes the check: the same renaming of a
    team is refused and the file is left as it was. *)
Example update_team_refuses_taken_name :
  TeamManager.update_team
    {| TeamManager.ut_id := JStr "2";
       TeamManager.ut_team := Some [("name", JStr "core")] |} two_teams
  = (Err (ValueError "Team name must be unique"), two_teams).
Proof. reflexivity. Qed.

(** * Further properties *)

(** ** Keys of records *)

Lemma dict_has_set k k' v d :
  dict_has k d = true -> dict_has k (dict_set k' v d) = true.
Proof.
  unfold dict_has. intros H.
  destruct (String.eqb_spec k' k) as [->|Hne].
  - now rewrite dict_get_set_same.
  - now rewrite dict_get_set_other.
Qed.


Lemma has_keys_set ks k v fields :
  has_keys ks (JObj fields) = true ->
  has_keys ks (JObj (dict_set k v fields)) = true.
Proof.
  cbn [has_keys]. rewrite !forallb_forall.
  intros H key Hin. now apply dict_has_set, H.
Qed.


Lemma has_keys_item ks record k :
  has_keys ks record = true -> In k ks -> exists v, item record k = Ok v.
Proof.
  destruct record as [| | | | |fields]; try discriminate.
  cbn [has_keys]. rewrite forallb_forall. intros H Hin.
  specialize (H k Hin). unfold dict_has in H. unfold item. cbn [py_getitem].
  destruct (dict_get k fields); [eauto|discriminate].
Qed.


Lemma forallb_values_get (P : json -> bool) k d v :
  forallb P (values d) = true -> dict_get k d = Some v -> P v = true.
Proof.
  intros H Hget. rewrite forallb_forall in H.
  apply H. now apply (dict_get_in_values k).
Qed.


(** ** Teams on file *)






(** ** Reading and changing users *)














(** ** Reading teams *)





(** ** Removing members *)









(** ** Names of teams under every operation *)






(** ** Teams of a user *)

Import UserManager.

Lemma in_values_dict_set_inv k new d v :
  In v (values (dict_set k new d)) -> v = new \/ In v (values d).
Proof.
  induction d as [|[k' v'] d IH]; cbn.
  - intuition congruence.
  - destruct (String.eqb k k'); cbn; intuition congruence.
Qed.

Lemma team_summary_shaped team :
  team_shaped team = true -> exists summary, team_summary team = Ok summary.
Proof.
  intros H. unfold team_summary.
  destruct (has_keys_item _ _ "name" H) as [v1 ->]; [cbn; tauto|].
  destruct (has_keys_item _ _ "description" H) as [v2 ->]; [cbn; tauto|].
  destruct (has_keys_item _ _ "creation_time" H) as [v3 ->]; [cbn; tauto|].
  cbn. eauto.
Qed.

Lemma among_strings s l :
  existsb (fun y => py_eq y (JStr s)) l = true <-> In (JStr s) l.
Proof.
  rewrite existsb_exists. split.
  - intros (y & Hin & Heq). apply py_eq_str in Heq. now subst.
  - intros Hin. exists (JStr s). split; [assumption|apply py_eq_str_refl].
Qed.

(** The loop of [get_user_teams] on teams that have their five keys
    and a list under "users". *)
Lemma teams_of_user_listed s teams :
  forallb team_shaped (values teams) = true ->
  (forall team, In team (values teams) ->
                exists l, item team "users" = Ok (JArr l)) ->
  exists found,
    teams_of_user (JStr s) teams = Ok found
    /\ forall summary,
        In summary found <->
        exists team l,
          In team (values teams)
          /\ item team "users" = Ok (JArr l)
          /\ In (JStr s) l
          /\ team_summary team = Ok summary.
Proof.
  induction teams as [|[k team] rest IH]; intros Hshaped Hlisted.
  - exists []. split; [reflexivity|]. intros summary. split; [intros []|].
    intros (team & l & [] & _).
  - cbn [values map snd forallb] in Hshaped.
    apply andb_true_iff in Hshaped as [Hteam Hrest].
    destruct IH as (found & Hfound & Hspec); [assumption| |].
    { intros t Ht. apply Hlisted. now right. }
    destruct (Hlisted team (or_introl eq_refl)) as [l Hl].
    destruct (team_summary_shaped team Hteam) as [summary0 Hsummary].
    pose proof Hl as Hl'. apply item_inv in Hl' as (fields & -> & Husers).
    cbn [teams_of_user]. unfold is_member. cbn [py_get]. rewrite Husers.
    cbn [rbind py_in].
    destruct (existsb (fun y => py_eq y (JStr s)) l) eqn:Hmember.
    + rewrite Hsummary, Hfound. cbn [rbind].
      exists (summary0 :: found). split; [reflexivity|].
      intros summary. cbn [In values map snd]. rewrite Hspec. split.
      * intros [<-|(t & l' & Ht & Hrest')].
        -- exists (JObj fields), l. apply among_strings in Hmember. auto.
        -- exists t, l'. tauto.
      * intros (t & l' & [<-|Ht] & Hl0 & Hs & Hsum).
        -- left. congruence.
        -- right. exists t, l'. auto.
    + exists found. split; [exact Hfound|].
      intros summary. cbn [In values map snd]. rewrite Hspec. split.
      * intros (t & l' & Ht & Hrest'). exists t, l'. tauto.
      * intros (t & l' & [<-|Ht] & Hl0 & Hs & Hsum).
        -- rewrite Hl in Hl0. injection Hl0 as <-.
           apply among_strings in Hs. congruence.
        -- exists t, l'. auto.
Qed.

(** X5: [get_user_teams] raises when 'db/teams.json' is missing;
    on a teams file whose teams have their five keys and a list of
    members, it returns the summaries (name, description,
    creation_time) of exactly the teams whose member list contains the
    user id. *)
Theorem get_user_teams_lists_memberships s teams :
  s <> "" ->
  forallb team_shaped (values teams) = true ->
  (forall team, In team (values teams) ->
                exists l, item team "users" = Ok (JArr l)) ->
  get_user_teams {| du_id := JStr s |} None
  = Err (ValueError "Teams database not found")
  /\ exists found,
      get_user_teams {| du_id := JStr s |} (Some teams) = Ok (JArr found)
      /\ forall summary,
          In summary found <->
          exists team l,
            In team (values teams)
            /\ item team "users" = Ok (JArr l)
            /\ In (JStr s) l
            /\ team_summary team = Ok summary.
Proof.
  intros Hs Hshaped Hlisted.
  unfold get_user_teams. cbn [du_id]. rewrite truthy_str by assumption.
  cbn [negb]. split; [reflexivity|].
  destruct (teams_of_user_listed s teams Hshaped Hlisted) as (found & -> & Hspec).
  exists found. split; [reflexivity|exact Hspec].
Qed.

Lemma get_user_teams_lists_memberships_witness :
  get_user_teams {| du_id := JStr "1" |} None
  = Err (ValueError "Teams database not found")
  /\ exists found,
      get_user_teams {| du_id := JStr "1" |} (Some team_with_member)
      = Ok (JArr found)
      /\ forall summary,
          In summary found <->
          exists team l,
            In team (values team_with_member)
            /\ item team "users" = Ok (JArr l)
            /\ In (JStr "1") l
            /\ team_summary team = Ok summary.
Proof.
  refine (get_user_teams_lists_memberships "1" team_with_member _ eq_refl _).
  - discriminate.
  - intros team [<-|[]]. eexists. reflexivity.
Defined.

(** X6: after [add_users_to_team] has added a list containing the id
    [u] to a team, [get_user_teams] for [u] succeeds and its result
    contains the summary of that team (on a teams file whose teams have
    their five keys and a list of members). *)
Theorem added_user_finds_team order k teams fields old new u :
  (forall l, Permutation (order l) l) ->
  k <> "" ->
  u <> "" ->
  forallb team_shaped (values teams) = true ->
  (forall team, In team (values teams) ->
                exists l, item team "users" = Ok (JArr l)) ->
  dict_get k teams = Some (JObj fields) ->
  dict_get "users" fields = Some (JArr (map JStr old)) ->
  List.length new <= 50 ->
  In u new ->
  exists teams' found summary,
    add_users_to_team order
      {| tu_id := JStr k; tu_users := Some (JArr (map JStr new)) |} teams
    = (Ok (JObj [("id", JStr k)]), teams')
    /\ get_user_teams {| du_id := JStr u |} (Some teams') = Ok (JArr found)
    /\ team_summary (JObj fields) = Ok summary
    /\ In summary found.
Proof.
  intros Horder Hk Hu Hshaped Hlisted Hget Husers Hlen Hnew.
  destruct (add_users_to_team_strings order k teams fields old new)
    as (members & Hadd & _ & Hin & _); auto.
  set (team' := JObj (dict_set "users" (JArr (map JStr members)) fields)) in *.
  assert (team_shaped (JObj fields) = true) as Hteam
      by exact (forallb_values_get _ _ _ _ Hshaped Hget).
  destruct (team_summary_shaped _ Hteam) as [summary Hsummary].
  assert (team_summary team' = Ok summary) as Hsummary'.
  { revert Hsummary. unfold team', team_summary, item. cbn [py_getitem].
    now rewrite !dict_get_set_other by discriminate. }
  destruct (teams_of_user_listed u (dict_set k team' teams))
    as (found & Hfound & Hspec).
  - apply forallb_values_dict_set; [assumption|]. now apply has_keys_set.
  - intros team Hin'. apply in_values_dict_set_inv in Hin' as [->|Hin'].
    + eexists. unfold team', item. cbn [py_getitem].
      now rewrite dict_get_set_same.
    + now apply Hlisted.
  - exists (dict_set k team' teams), found, summary.
    split; [exact Hadd|]. split.
    + unfold get_user_teams. cbn [du_id]. rewrite truthy_str by assumption.
      cbn [negb]. now rewrite Hfound.
    + split; [exact Hsummary|]. apply Hspec.
      exists team', (map JStr members). split; [apply in_values_dict_set|].
      split.
      * unfold team', item. cbn [py_getitem]. now rewrite dict_get_set_same.
      * split; [|exact Hsummary']. apply in_map. apply Hin. now right.
Qed.

Lemma added_user_finds_team_witness :
  exists teams' found summary,
    add_users_to_team (fun l => l)
      {| tu_id := JStr "2"; tu_users := Some (JArr (map JStr ["7"])) |} two_teams
    = (Ok (JObj [("id", JStr "2")]), teams')
    /\ get_user_teams {| du_id := JStr "7" |} (Some teams') = Ok (JArr found)
    /\ team_summary
         (JObj [("name", JStr "infra");
                ("description", JStr "d");
                ("admin", JStr "1");
                ("creation_time", JStr "2024-05-01T09:05:00");
                ("users", JArr [])]) = Ok summary
    /\ In summary found.
Proof.
  refine (added_user_finds_team (fun l => l) "2" two_teams _ [] ["7"] "7"
            (fun l => Permutation_refl l) _ _ eq_refl _ eq_refl eq_refl _ _).
  - discriminate.
  - discriminate.
  - intros team [<-|[<-|[]]]; eexists; reflexivity.
  - cbn. lia.
  - now left.
Defined.

(** ** Boards on file *)


Lemma values_middle before k (v : json) after :
  values (before ++ (k, v) :: after) = values before ++ v :: values after.
Proof. unfold values. now rewrite map_app. Qed.

Lemma forallb_middle (P : json -> bool) before v v' after :
  forallb P (before ++ v :: after) = true -> P v' = true ->
  forallb P (before ++ v' :: after) = true.
Proof.
  rewrite !forallb_app. cbn [forallb]. rewrite !andb_true_iff.
  intros (H1 & _ & H2) Hv. auto.
Qed.

(** On boards that have their keys, the loop of [update_task_status]
    replaces the status of one task of one board. *)
Lemma set_first_match_shaped task_id status boards boards' :
  forallb board_shaped (values boards) = true ->
  set_first_match task_id status boards = Ok (Some boards') ->
  exists before k fields tasks tid task after,
    task_id = JStr tid
    /\ boards = before ++ (k, JObj fields) :: after
    /\ dict_get "tasks" fields = Some (JObj tasks)
    /\ dict_get tid tasks = Some (JObj task)
    /\ boards' =
       before
       ++ (k, JObj (dict_set "tasks"
                      (JObj (dict_set tid
                               (JObj (dict_set "status" status task)) tasks))
                      fields))
       :: after.
Proof.
  revert boards'. induction boards as [|[k board] rest IH]; intros boards'.
  - discriminate 2.
  - cbn [values map snd forallb set_first_match]. intros Hshaped.
    apply andb_true_iff in Hshaped as [Hboard Hrest].
    unfold board_shaped in Hboard.
    apply andb_true_iff in Hboard as [_ Htasks].
    destruct (item board "tasks") as [tasks|] eqn:Hitem; [|discriminate].
    destruct tasks as [| | | | |tasks]; try discriminate.
    apply item_inv in Hitem as (fields & -> & Hitem).
    cbn [rbind].
    destruct (py_in task_id (JObj tasks)) as [[|]|] eqn:Hin;
      try discriminate; cbn [rbind].
    + apply lookup_inv in Hin as (tid & task & -> & Hget & ->). cbn [rbind].
      destruct (py_setitem task "status" status) as [task'|] eqn:Hset;
        [|discriminate].
      apply py_setitem_inv in Hset as (t & -> & ->). cbn [rbind with_item].
      intros [= <-]. exists [], k, fields, tasks, tid, t, rest. auto.
    + destruct (set_first_match task_id status rest) as [[rest'|]|] eqn:Hloop;
        try discriminate.
      cbn [rbind option_map]. intros [= <-].
      destruct (IH rest' Hrest eq_refl)
        as (before & k0 & fields0 & tasks0 & tid & task & after
            & -> & -> & H1 & H2 & ->).
      exists ((k, JObj fields) :: before), k0, fields0, tasks0, tid, task, after.
      auto.
Qed.

Lemma board_shaped_inv board :
  board_shaped board = true ->
  exists fields tasks,
    board = JObj fields
    /\ has_keys ["name"; "description"; "team_id"; "status"; "creation_time";
                 "tasks"] (JObj fields) = true
    /\ (dict_get "status" fields = Some (JStr "OPEN")
        \/ dict_get "status" fields = Some (JStr "CLOSED"))
    /\ dict_get "tasks" fields = Some (JObj tasks)
    /\ forallb task_shaped (values tasks) = true.
Proof.
  unfold board_shaped. intros H.
  apply andb_true_iff in H as [[Hkeys Hstatus]%andb_true_iff Htasks].
  destruct (item board "status") as [s|] eqn:Hs; [|discriminate].
  apply item_inv in Hs as (fields & -> & Hs).
  destruct (item (JObj fields) "tasks") as [tasks|] eqn:Ht; [|discriminate].
  destruct tasks as [| | | | |tasks]; try discriminate.
  apply item_inv in Ht as (fields' & [= <-] & Ht).
  exists fields, tasks. repeat split; auto.
  apply orb_true_iff in Hstatus as [H|H]; apply py_eq_str in H; subst; auto.
Qed.

Lemma board_shaped_intro fields tasks status :
  has_keys ["name"; "description"; "team_id"; "status"; "creation_time"; "tasks"]
    (JObj fields) = true ->
  dict_get "status" fields = Some (JStr status) ->
  status = "OPEN" \/ status = "CLOSED" ->
  dict_get "tasks" fields = Some (JObj tasks) ->
  forallb task_shaped (values tasks) = true ->
  board_shaped (JObj fields) = true.
Proof.
  intros Hkeys Hstatus Hvalue Htasks Hall. unfold board_shaped.
  rewrite Hkeys, (item_obj _ _ _ Hstatus), (item_obj _ _ _ Htasks), Hall.
  destruct Hvalue as [->| ->]; reflexivity.
Qed.

Lemma tasks_dict_obj fields tasks :
  dict_get "tasks" fields = Some (JObj tasks) -> tasks_dict (JObj fields) = tasks.
Proof. intros H. unfold tasks_dict. now rewrite (item_obj _ _ _ H). Qed.

(** What every operation keeps: each board has its keys, a status OPEN
    or CLOSED, tasks with their keys and one of the three statuses, and
    task ids "1", "2", ... *)
Lemma boards_stay_shaped op boards response boards' :
  forallb board_shaped (values boards) = true ->
  Forall (fun board => sequential (tasks_dict board)) (values boards) ->
  run_board_op op boards = (Ok response, boards') ->
  forallb board_shaped (values boards') = true
  /\ Forall (fun board => sequential (tasks_dict board)) (values boards').
Proof.
  intros Hshaped Hseq Hrun.
  assert (forall k new,
             board_shaped new = true -> sequential (tasks_dict new) ->
             forallb board_shaped (values (dict_set k new boards)) = true
             /\ Forall (fun board => sequential (tasks_dict board))
                  (values (dict_set k new boards))) as Hset.
  { intros k new H1 H2. split; [now apply forallb_values_dict_set|].
    apply Forall_forall. intros board Hin.
    apply in_values_dict_set_inv in Hin as [->|Hin]; [assumption|].
    rewrite Forall_forall in Hseq. now apply Hseq. }
  assert (forall k board, dict_get k boards = Some board ->
                          board_shaped board = true
                          /\ sequential (tasks_dict board)) as Hget.
  { intros k board H. split; [exact (forallb_values_get _ _ _ _ Hshaped H)|].
    rewrite Forall_forall in Hseq. apply Hseq.
    now apply (dict_get_in_values k). }
  destruct op as [request now|request now|request now|request]; cbn in Hrun.
  - apply create_board_inv in Hrun as [_ ->]. apply Hset; reflexivity.
  - apply close_board_inv in Hrun
      as (k & fields & tasks & _ & Hk & Htasks & _ & _ & ->).
    destruct (Hget _ _ Hk) as [Hb Hs].
    apply board_shaped_inv in Hb as (f & t & [= <-] & Hkeys & _ & Ht & Hall).
    rewrite Htasks in Ht. injection Ht as <-.
    assert (dict_get "tasks"
              (dict_set "end_time" (JStr now)
                 (dict_set "status" (JStr "CLOSED") fields))
            = Some (JObj tasks)) as Htasks'
        by now rewrite !dict_get_set_other by discriminate.
    apply Hset.
    + apply (board_shaped_intro _ tasks "CLOSED"); auto.
      * now apply has_keys_set, has_keys_set.
      * apply status_after_close.
    + rewrite (tasks_dict_obj _ _ Htasks').
      now rewrite (tasks_dict_obj _ _ Htasks) in Hs.
  - apply add_task_inv in Hrun
      as (k & fields & tasks & _ & Hk & Hopen & Htasks & _ & _ & ->).
    destruct (Hget _ _ Hk) as [Hb Hs].
    apply board_shaped_inv in Hb as (f & t & [= <-] & Hkeys & _ & Ht & Hall).
    rewrite Htasks in Ht. injection Ht as <-.
    rewrite (tasks_dict_obj _ _ Htasks) in Hs.
    apply Hset.
    + eapply (board_shaped_intro _ _ "OPEN"); auto.
      * now apply has_keys_set.
      * now rewrite dict_get_set_other by discriminate.
      * apply dict_get_set_same.
      * now apply forallb_values_dict_set.
    + rewrite (tasks_dict_obj _ _ (dict_get_set_same _ _ _)).
      now apply sequential_append.
  - unfold update_task_status in Hrun. run.
    destruct (_ || _); [discriminate|].
    destruct (existsb _ _) eqn:Hstatus; [|discriminate]. cbn [negb] in Hrun.
    destruct (set_first_match _ _ _) as [[updated|]|] eqn:Hloop;
      try discriminate.
    injection Hrun as _ <-.
    destruct (set_first_match_shaped _ _ _ _ Hshaped Hloop)
      as (before & k & fields & tasks & tid & task & after
          & _ & -> & Htasks & Htask & ->).
    rewrite values_middle in *.
    assert (board_shaped (JObj fields) = true) as Hb.
    { rewrite forallb_app in Hshaped. cbn in Hshaped.
      now apply andb_true_iff in Hshaped as (_ & [H _]%andb_true_iff). }
    apply board_shaped_inv in Hb
      as (f & t & [= <-] & Hkeys & Hvalue & Ht & Hall).
    rewrite Htasks in Ht. injection Ht as <-.
    pose proof (forallb_values_get _ _ _ _ Hall Htask) as Hshape.
    unfold task_shaped in Hshape.
    apply andb_true_iff in Hshape as [Htkeys _].
    assert (task_shaped (JObj (dict_set "status" (ts_status request) task))
            = true) as Htask'.
    { unfold task_shaped. rewrite (has_keys_set _ _ _ _ Htkeys).
      unfold item. cbn [py_getitem]. rewrite dict_get_set_same. exact Hstatus. }
    split.
    + apply (forallb_middle _ _ (JObj fields)); [assumption|].
      destruct Hvalue as [Hvalue|Hvalue].
      * eapply (board_shaped_intro _ _ "OPEN"); auto.
        -- now apply has_keys_set.
        -- now rewrite dict_get_set_other by discriminate.
        -- apply dict_get_set_same.
        -- now apply forallb_values_dict_set.
      * eapply (board_shaped_intro _ _ "CLOSED"); auto.
        -- now apply has_keys_set.
        -- now rewrite dict_get_set_other by discriminate.
        -- apply dict_get_set_same.
        -- now apply forallb_values_dict_set.
    + apply Forall_app in Hseq as [H1 H2]. apply Forall_app. split; [assumption|].
      inversion H2 as [|? ? Hs H3]; subst. constructor; [|assumption].
      rewrite (tasks_dict_obj _ _ (dict_get_set_same _ _ _)).
      rewrite (tasks_dict_obj _ _ Htasks) in Hs.
      apply sequential_overwrite; [|assumption].
      unfold dict_has. now rewrite Htask.
Qed.

Lemma board_reachable_shaped boards :
  board_reachable boards ->
  forallb board_shaped (values boards) = true
  /\ Forall (fun board => sequential (tasks_dict board)) (values boards).
Proof.
  induction 1 as [|op boards response boards' _ [IH1 IH2] Hrun].
  - split; [reflexivity|constructor].
  - exact (boards_stay_shaped _ _ _ _ IH1 IH2 Hrun).
Qed.

Example two_boards_reachable : board_reachable two_boards.
Proof.
  pose proof reachable_empty as H0.
  pose proof (reachable_step
                (CreateBoard {| cb_name := JStr "Sprint1";
                                cb_description := JStr "d";
                                cb_team_id := JStr "1" |} "2024-05-01T09:00:00")
                _ _ _ H0 eq_refl) as H1.
  pose proof (reachable_step
                (CreateBoard {| cb_name := JStr "Sprint2";
                                cb_description := JStr "d";
                                cb_team_id := JStr "1" |} "2024-05-01T09:30:00")
                _ _ _ H1 eq_refl) as H2.
  pose proof (reachable_step
                (AddTask {| at_title := JStr "T1"; at_description := JStr "d";
                            at_user_id := JStr "1"; at_board_id := JStr "1" |}
                         "2024-05-01T10:00:00")
                _ _ _ H2 eq_refl) as H3.
  exact (reachable_step
           (AddTask {| at_title := JStr "U1"; at_description := JStr "d";
                       at_user_id := JStr "2"; at_board_id := JStr "2" |}
                    "2024-05-01T10:30:00")
           _ _ _ H3 eq_refl).
Qed.

Lemma task_shaped_inv task :
  task_shaped task = true ->
  exists fields status,
    task = JObj fields
    /\ dict_get "status" fields = Some status
    /\ In status statuses.
Proof.
  unfold task_shaped. intros [_ H]%andb_true_iff.
  destruct (item task "status") as [s|] eqn:Hs; [|discriminate].
  apply item_inv in Hs as (fields & -> & Hs).
  exists fields, s. split; [reflexivity|]. split; [assumption|].
  apply existsb_exists in H as (x & Hin & Heq).
  destruct Hin as [<-|[<-|[<-|[]]]]; apply py_eq_str_l in Heq; subst; cbn; auto.
Qed.

(** X13: on every board file written only by successful operations,
    starting from the empty one, each board is a dictionary whose status
    is OPEN or CLOSED and whose tasks are stored under the ids "1", "2",
    ... in this order; each task is a dictionary whose status is OPEN,
    IN_PROGRESS or COMPLETE. *)
Theorem reachable_boards_are_well_formed boards k board :
  board_reachable boards ->
  dict_get k boards = Some board ->
  exists fields tasks,
    board = JObj fields
    /\ (dict_get "status" fields = Some (JStr "OPEN")
        \/ dict_get "status" fields = Some (JStr "CLOSED"))
    /\ dict_get "tasks" fields = Some (JObj tasks)
    /\ keys tasks = map str (seq 1 (List.length tasks))
    /\ forall task_id task,
        dict_get task_id tasks = Some task ->
        exists task_fields status,
          task = JObj task_fields
          /\ dict_get "status" task_fields = Some status
          /\ In status statuses.
Proof.
  intros Hreach Hget.
  destruct (board_reachable_shaped _ Hreach) as [Hshaped Hseq].
  pose proof (forallb_values_get _ _ _ _ Hshaped Hget) as Hboard.
  apply board_shaped_inv in Hboard as (fields & tasks & -> & _ & Hs & Ht & Hall).
  exists fields, tasks. repeat split; auto.
  - rewrite Forall_forall in Hseq.
    specialize (Hseq _ (dict_get_in_values _ _ _ Hget)).
    now rewrite (tasks_dict_obj _ _ Ht) in Hseq.
  - intros task_id task Htask. apply task_shaped_inv.
    exact (forallb_values_get _ _ _ _ Hall Htask).
Qed.

Lemma reachable_boards_are_well_formed_witness :
  exists fields tasks,
    JObj [("name", JStr "Sprint2");
          ("description", JStr "d");
          ("team_id", JStr "1");
          ("status", JStr "OPEN");
          ("creation_time", JStr "2024-05-01T09:30:00");
          ("tasks",
           JObj [("1",
                  JObj [("title", JStr "U1");
                        ("description", JStr "d");
                        ("user_id", JStr "2");
                        ("status", JStr "OPEN");
                        ("creation_time", JStr "2024-05-01T10:30:00")])])]
    = JObj fields
    /\ (dict_get "status" fields = Some (JStr "OPEN")
        \/ dict_get "status" fields = Some (JStr "CLOSED"))
    /\ dict_get "tasks" fields = Some (JObj tasks)
    /\ keys tasks = map str (seq 1 (List.length tasks))
    /\ forall task_id task,
        dict_get task_id tasks = Some task ->
        exists task_fields status,
          task = JObj task_fields
          /\ dict_get "status" task_fields = Some status
          /\ In status statuses.
Proof.
  exact (reachable_boards_are_well_formed two_boards "2" _ two_boards_reachable
           eq_refl).
Defined.

(** ** Listing boards *)




(** ** Tasks are added, never replaced *)

(** X15: on a reachable board file a successful [add_task] returns
    the number of tasks of the board plus one as the id, no task of the
    board is stored under that id yet, and afterwards the board has its
    former tasks followed by the new one: no task is overwritten. *)
Theorem add_task_appends request now boards response boards' :
  board_reachable boards ->
  add_task request now boards = (Ok response, boards') ->
  exists k fields tasks task_id task,
    at_board_id request = JStr k
    /\ dict_get k boards = Some (JObj fields)
    /\ dict_get "tasks" fields = Some (JObj tasks)
    /\ task_id = str (List.length tasks + 1)
    /\ response = JObj [("id", JStr task_id)]
    /\ dict_get task_id tasks = None
    /\ item task "title" = Ok (at_title request)
    /\ dict_get k boards'
       = Some (JObj (dict_set "tasks" (JObj (tasks ++ [(task_id, task)])) fields)).
Proof.
  intros Hreach Hrun.
  destruct (board_reachable_shaped _ Hreach) as [_ Hseq].
  apply add_task_inv in Hrun
    as (k & fields & tasks & Hid & Hget & _ & Htasks & _ & -> & ->).
  rewrite Forall_forall in Hseq.
  specialize (Hseq _ (dict_get_in_values _ _ _ Hget)).
  rewrite (tasks_dict_obj _ _ Htasks) in Hseq.
  exists k, fields, tasks, (str (List.length tasks + 1)),
         (JObj [("title", at_title request);
                ("description", at_description request);
                ("user_id", at_user_id request);
                ("status", JStr "OPEN");
                ("creation_time", JStr now)]).
  split; [exact Hid|]. split; [exact Hget|]. split; [exact Htasks|].
  split; [reflexivity|]. split; [reflexivity|].
  split; [now apply sequential_fresh|]. split; [reflexivity|].
  rewrite dict_get_set_same.
  now rewrite (dict_set_absent _ _ _ (sequential_fresh _ Hseq)).
Qed.

Lemma add_task_appends_witness :
  exists k fields tasks task_id task,
    JStr "2" = JStr k
    /\ dict_get k two_boards = Some (JObj fields)
    /\ dict_get "tasks" fields = Some (JObj tasks)
    /\ task_id = str (List.length tasks + 1)
    /\ JObj [("id", JStr "2")] = JObj [("id", JStr task_id)]
    /\ dict_get task_id tasks = None
    /\ item task "title" = Ok (JStr "U2")
    /\ dict_get k
         (snd (add_task {| at_title := JStr "U2"; at_description := JStr "d";
                           at_user_id := JStr "2"; at_board_id := JStr "2" |}
                 "2024-05-02T08:00:00" two_boards))
       = Some (JObj (dict_set "tasks" (JObj (tasks ++ [(task_id, task)])) fields)).
Proof.
  exact (add_task_appends
           {| at_title := JStr "U2"; at_description := JStr "d";
              at_user_id := JStr "2"; at_board_id := JStr "2" |}
           "2024-05-02T08:00:00" two_boards _ _ two_boards_reachable eq_refl).
Defined.

(** ** Closed boards *)




(** X17: a board to which [add_task] has just added a task cannot be
    closed: [close_board] on it raises and leaves the file as it is,
    the new task being OPEN. *)
Theorem new_task_blocks_closing request now later boards response boards' :
  add_task request now boards = (Ok response, boards') ->
  exists e,
    close_board {| br_id := at_board_id request |} later boards'
    = (Err e, boards').
Proof.
  intros Hrun.
  apply add_task_inv in Hrun
    as (k & fields & tasks & Hid & _ & _ & _ & _ & _ & ->).
  set (boards' := dict_set k _ boards).
  destruct (close_board {| br_id := at_board_id request |} later boards')
    as [[ack|e] after] eqn:Hclose.
  - exfalso.
    apply close_board_inv in Hclose
      as (k' & fields' & tasks' & Hid' & Hget' & Htasks' & Hall & _).
    cbn [br_id] in Hid'. rewrite Hid in Hid'. injection Hid' as <-.
    unfold boards' in Hget'. rewrite dict_get_set_same in Hget'.
    injection Hget' as <-. rewrite dict_get_set_same in Htasks'.
    injection Htasks' as <-.
    rewrite forallb_forall in Hall.
    specialize (Hall _ (in_values_dict_set _ _ _)). discriminate.
  - apply close_board_frame in Hclose as ->. eauto.
Qed.

Lemma new_task_blocks_closing_witness :
  exists e,
    close_board {| br_id := JStr "1" |} "2024-05-02T09:00:00"
      (snd (add_task {| at_title := JStr "T2"; at_description := JStr "d";
                        at_user_id := JStr "1"; at_board_id := JStr "1" |}
              "2024-05-02T08:00:00" open_sprint))
    = (Err e,
       snd (add_task {| at_title := JStr "T2"; at_description := JStr "d";
                        at_user_id := JStr "1"; at_board_id := JStr "1" |}
              "2024-05-02T08:00:00" open_sprint)).
Proof.
  exact (new_task_blocks_closing
           {| at_title := JStr "T2"; at_description := JStr "d";
              at_user_id := JStr "1"; at_board_id := JStr "1" |}
           "2024-05-02T08:00:00" "2024-05-02T09:00:00" open_sprint _ _ eq_refl).
Defined.

(** X18: once [close_board] has succeeded on a board, every [add_task]
    for that board raises and leaves the file as it is. *)
Theorem closed_board_takes_no_task request now boards ack boards' task later :
  close_board request now boards = (Ok ack, boards') ->
  at_board_id task = br_id request ->
  exists e, add_task task later boards' = (Err e, boards').
Proof.
  intros Hclose Hsame.
  apply close_board_inv in Hclose
    as (k & fields & tasks & Hid & _ & _ & _ & _ & ->).
  set (boards' := dict_set k _ boards).
  destruct (add_task task later boards') as [[response|e] after] eqn:Hadd.
  - exfalso.
    apply add_task_inv in Hadd as (k' & fields' & tasks' & Hid' & Hget' & Hopen & _).
    rewrite Hsame, Hid in Hid'. injection Hid' as <-.
    unfold boards' in Hget'. rewrite dict_get_set_same in Hget'.
    injection Hget' as <-. rewrite status_after_close in Hopen. discriminate.
  - apply add_task_frame in Hadd as ->. eauto.
Qed.

Lemma closed_board_takes_no_task_witness :
  exists e,
    add_task {| at_title := JStr "T2"; at_description := JStr "d";
                at_user_id := JStr "1"; at_board_id := JStr "1" |}
      "2024-05-02T09:00:00"
      (snd (close_board {| br_id := JStr "1" |} "2024-05-02T08:00:00"
              closed_sprint))
    = (Err e,
       snd (close_board {| br_id := JStr "1" |} "2024-05-02T08:00:00"
              closed_sprint)).
Proof.
  exact (closed_board_takes_no_task {| br_id := JStr "1" |}
           "2024-05-02T08:00:00" closed_sprint _ _
           {| at_title := JStr "T2"; at_description := JStr "d";
              at_user_id := JStr "1"; at_board_id := JStr "1" |}
           "2024-05-02T09:00:00" eq_refl eq_refl).
Defined.

(** ** Names of boards and titles of tasks *)

Lemma all_distinct_app same records record :
  all_distinct same (records ++ [record])
  = all_distinct same records
    && forallb (fun r => negb (same r record)) records.
Proof.
  induction records as [|r rest IH]; [reflexivity|].
  cbn [app all_distinct forallb]. rewrite IH, forallb_app. cbn [forallb].
  destruct (negb (same r record)), (all_distinct same rest),
    (forallb (fun r' => negb (same r r')) rest); cbn; auto.
Qed.

Lemma all_distinct_replace same before old new after :
  (forall x, same x new = same x old) ->
  (forall x, same new x = same old x) ->
  all_distinct same (before ++ new :: after)
  = all_distinct same (before ++ old :: after).
Proof.
  intros Hleft Hright. induction before as [|r before IH].
  - cbn [app all_distinct]. f_equal.
    induction after as [|x after IH]; [reflexivity|].
    cbn [forallb]. now rewrite Hright, IH.
  - cbn [app all_distinct]. rewrite IH. f_equal.
    rewrite !forallb_app. cbn [forallb]. now rewrite Hleft.
Qed.

Lemma all_distinct_after_set same k new old d :
  dict_get k d = Some old ->
  (forall x, same x new = same x old) ->
  (forall x, same new x = same old x) ->
  all_distinct same (values (dict_set k new d)) = all_distinct same (values d).
Proof.
  intros Hget Hleft Hright.
  destruct (dict_set_split k new _ _ Hget) as (before & after & -> & ->).
  rewrite !values_middle. now apply all_distinct_replace.
Qed.

Lemma same_board_items a a' :
  item a' "name" = item a "name" ->
  item a' "team_id" = item a "team_id" ->
  (forall x, same_board x a' = same_board x a)
  /\ (forall x, same_board a' x = same_board a x).
Proof.
  intros Hname Hteam. unfold same_board. rewrite Hname, Hteam. auto.
Qed.


Lemma item_set_other fields k key v :
  k <> key -> item (JObj (dict_set k v fields)) key = item (JObj fields) key.
Proof.
  intros H. unfold item. cbn [py_getitem]. now rewrite dict_get_set_other.
Qed.

(** Each operation keeps the pairs of name and team id distinct. *)
Lemma board_names_step op boards response boards' :
  sequential boards ->
  forallb board_shaped (values boards) = true ->
  all_distinct same_board (values boards) = true ->
  run_board_op op boards = (Ok response, boards') ->
  all_distinct same_board (values boards') = true.
Proof.
  intros Hseq Hshaped Hdistinct Hrun.
  destruct op as [request now|request now|request now|request]; cbn in Hrun.
  - revert Hrun. unfold create_board. run.
    destruct (_ || _); [discriminate|].
    destruct (len_gt (cb_name request) 64) as [[|]|]; try discriminate.
    destruct (len_gt (cb_description request) 128) as [[|]|]; try discriminate.
    destruct (any_m _ _) as [[|]|] eqn:Hany; try discriminate.
    intros H. inversion H; subst; clear H.
    rewrite dict_set_absent by now apply sequential_fresh.
    unfold values. rewrite map_app. cbn [map snd].
    rewrite all_distinct_app. fold (values boards). rewrite Hdistinct.
    cbn [andb]. apply forallb_forall. intros board Hin.
    apply (any_m_false _ _ Hany) in Hin. revert Hin.
    unfold and_then, item_eq, same_board.
    destruct (item board "name") as [n|]; [|reflexivity]. cbn [rbind].
    change (item (JObj _) "name") with (Ok (cb_name request)).
    change (item (JObj _) "team_id") with (Ok (cb_team_id request)).
    destruct (item board "team_id") as [t|]; cbn [rbind];
      destruct (py_eq n (cb_name request)); try reflexivity.
    now intros [= ->].
  - apply close_board_inv in Hrun
      as (k & fields & tasks & _ & Hget & _ & _ & _ & ->).
    rewrite (all_distinct_after_set _ _ _ _ _ Hget); [assumption| |];
      apply same_board_items; now rewrite !item_set_other by discriminate.
  - apply add_task_inv in Hrun
      as (k & fields & tasks & _ & Hget & _ & _ & _ & _ & ->).
    rewrite (all_distinct_after_set _ _ _ _ _ Hget); [assumption| |];
      apply same_board_items; now rewrite !item_set_other by discriminate.
  - unfold update_task_status in Hrun. run.
    destruct (_ || _); [discriminate|].
    destruct (negb _); [discriminate|].
    destruct (set_first_match _ _ _) as [[updated|]|] eqn:Hloop;
      try discriminate.
    injection Hrun as _ <-.
    destruct (set_first_match_shaped _ _ _ _ Hshaped Hloop)
      as (before & k & fields & tasks & tid & task & after
          & _ & -> & _ & _ & ->).
    rewrite values_middle in *.
    rewrite (all_distinct_replace _ _ (JObj fields)); [assumption| |];
      apply same_board_items; now rewrite !item_set_other by discriminate.
Qed.

(** X19: on every reachable board file no two boards have both the
    same name and the same team id. *)
Theorem board_names_unique_per_team boards :
  board_reachable boards -> all_distinct same_board (values boards) = true.
Proof.
  induction 1 as [|op boards response boards' Hreach IH Hrun]; [reflexivity|].
  destruct (board_reachable_shaped _ Hreach) as [Hshaped _].
  exact (board_names_step _ _ _ _ (board_reachable_sequential _ Hreach)
           Hshaped IH Hrun).
Qed.

Lemma board_names_unique_per_team_witness :
  all_distinct same_board (values two_boards) = true.
Proof. exact (board_names_unique_per_team two_boards two_boards_reachable). Defined.




(** ** Records are kept *)






